(** * GrinPlusPlus: block validation, slate signatures, node RPC, wallet restore
      and the server main loop, embedded shallowly and verified.

    Sources embedded here:
    - [BlockChain/Validators/BlockValidator.cpp] (the early, bool-returning
      validator: module [Legacy]);
    - [src/BlockChain/Validators/BlockValidator.cpp] (the exception-throwing
      validator: module [BlockValidator]);
    - [include/Core/Models/FullBlock.h];
    - [src/Wallet/SlateBuilder/SignatureUtil.h];
    - [src/API/Node/NodeServer.cpp];
    - [Wallet/WalletManagerImpl.cpp];
    - the server entry point (Server::Run and its Ctrl-C handler). *)

From Stdlib Require Import ZArith Lia Bool.
From stdpp Require Import base gmap sets list strings.

Local Open Scope Z_scope.

(** ** Fixed-width integers

    [uint64_t] values are integers in [0, 2^64); every arithmetic operation of
    the source on them is followed by its reduction modulo [2^64]. *)
Module U64.

Definition modulus : Z := 2 ^ 64.

Definition wrap (z : Z) : Z := z mod modulus.

Definition add (a b : Z) : Z := wrap (a + b).
Definition sub (a b : Z) : Z := wrap (a - b).
Definition mul (a b : Z) : Z := wrap (a * b).

(** Unsigned division. Division by zero is undefined behaviour in C++: the
    model makes it a failure. *)
Definition div (a b : Z) : option Z :=
  if b =? 0 then None else Some (a / b).

Definition in_range (z : Z) : Prop := 0 <= z < modulus.

(** Conversion of a [uint64_t] to [int64_t] (two's complement). *)
Definition to_int64 (z : Z) : Z :=
  if z <? 2 ^ 63 then z else z - modulus.

Lemma wrap_range z : in_range (wrap z).
Proof. unfold in_range, wrap, modulus. apply Z.mod_pos_bound. lia. Qed.

Lemma wrap_small z : in_range z -> wrap z = z.
Proof. unfold in_range, wrap. intros Hz. apply Z.mod_small. exact Hz. Qed.

Lemma add_wrap_l a b : add (wrap a) b = wrap (a + b).
Proof. unfold add, wrap. apply Zplus_mod_idemp_l. Qed.

End U64.

(** ** Exceptions and results

    The exception classes of the code base all derive from [std::exception];
    a thrown exception is its class and its [what()] text. *)
Inductive ErrorClass : Type :=
| BadDataError          (* BadDataException, raised by BAD_DATA_EXCEPTION *)
| BlockChainError       (* BlockChainException *)
| CryptoError           (* CryptoException *)
| DeserializationError  (* DeserializationException *)
| StdError.             (* any other std::exception *)

Record exception : Type := mkException {
  error_class : ErrorClass;
  what : string
}.

Definition BAD_DATA_EXCEPTION (msg : string) : exception :=
  mkException BadDataError msg.

Definition CRYPTO_EXCEPTION (msg : string) : exception :=
  mkException CryptoError msg.

Inductive result (A : Type) : Type :=
| Return (a : A)
| Throw (e : exception).
Arguments Return {A} a.
Arguments Throw {A} e.

#[global] Instance result_ret : MRet result := fun A a => Return a.
#[global] Instance result_bind : MBind result := fun A B f m =>
  match m with
  | Return a => f a
  | Throw e => Throw e
  end.

Definition returned {A} (r : result A) : bool :=
  match r with Return _ => true | Throw _ => false end.

Definition thrown_class {A} (r : result A) : option ErrorClass :=
  match r with Return _ => None | Throw e => Some (error_class e) end.

(** ** Cryptographic primitives

    The Crypto library (Pedersen commitments over secp256k1) is outside the
    embedded sources. The validators see it through three entry points, each of
    which may fail (a null pointer in the early code, a CryptoException in the
    later code). *)
Class CryptoAPI : Type := {
  Commitment : Type;
  Commitment_eq_dec :: EqDecision Commitment;
  (** [Crypto::CommitTransparent(value)]: the commitment [value·H]. *)
  CommitTransparent : Z -> option Commitment;
  (** [Crypto::AddCommitments(positive, negative)]. *)
  AddCommitments : list Commitment -> list Commitment -> option Commitment;
  (** [Crypto::AddBlindingFactors(positive, negative)] on 32-byte scalars. *)
  AddBlindingFactors : list Z -> list Z -> option Z
}.

(** The commitment group: an abelian group with the two generator maps
    [v ↦ v·H] and [r ↦ r·G]. *)
Class PedersenGroup : Type := {
  Point : Type;
  Point_eq_dec :: EqDecision Point;
  pzero : Point;
  padd : Point -> Point -> Point;
  popp : Point -> Point;
  mulH : Z -> Point;
  mulG : Z -> Point;
  scalar_order : Z;
  padd_assoc : forall a b c, padd a (padd b c) = padd (padd a b) c;
  padd_comm : forall a b, padd a b = padd b a;
  padd_zero_l : forall a, padd pzero a = a;
  padd_opp_r : forall a, padd a (popp a) = pzero
}.

Section GroupSums.
Context `{PedersenGroup}.

Definition psub (a b : Point) : Point := padd a (popp b).

Definition psum (l : list Point) : Point := foldr padd pzero l.

Lemma padd_zero_r a : padd a pzero = a.
Proof. rewrite padd_comm. apply padd_zero_l. Qed.

Lemma psub_add_cancel a b : padd (psub a b) b = a.
Proof.
  unfold psub. rewrite <- padd_assoc, (padd_comm (popp b) b), padd_opp_r.
  apply padd_zero_r.
Qed.

Lemma padd_sub_cancel a b : psub (padd a b) b = a.
Proof.
  unfold psub. rewrite <- padd_assoc, padd_opp_r. apply padd_zero_r.
Qed.

(** Moving a term across an equation. *)
Lemma psub_eq_iff a b c : psub a b = c <-> a = padd c b.
Proof.
  split; intros Heq.
  - rewrite <- Heq. symmetry. apply psub_add_cancel.
  - rewrite Heq. apply padd_sub_cancel.
Qed.

Lemma psum_app l1 l2 : psum (l1 ++ l2) = padd (psum l1) (psum l2).
Proof.
  induction l1 as [|p l1 IH]; simpl.
  - symmetry. apply padd_zero_l.
  - rewrite IH. apply padd_assoc.
Qed.

(** Modelled from the spec: the Crypto library's [commit_sum(pos, neg) → C],
    [commit(v, r) → C] and [add_blinding_factors(pos, neg) → r] (Crypto.cpp
    and Pedersen.cpp are not among the embedded sources). On well-formed
    points the operations are total: the sum of the positive commitments
    minus the sum of the negative ones, and the same on scalars modulo the
    group order. *)
#[export] Instance IdealCrypto : CryptoAPI := {|
  Commitment := Point;
  CommitTransparent v := Some (mulH v);
  AddCommitments pos neg := Some (psub (psum pos) (psum neg));
  AddBlindingFactors pos neg :=
    Some ((foldr Z.add 0 pos - foldr Z.add 0 neg) mod scalar_order)
|}.
End GroupSums.

(** ** Consensus constants

    [Consensus::REWARD] (Consensus/Common.h) is a [uint64_t] constant whose
    declaration is outside the embedded sources: the validators are
    parametric in it. *)
Class ConsensusParams : Type := {
  REWARD : Z;
  REWARD_range : U64.in_range REWARD
}.

(** ** Chain data model (Core/Models) *)

(** Modelled from the spec: the feature enumerations (EOutputFeatures,
    EKernelFeatures) are declared outside the embedded sources; the spec lists
    the kernel features PLAIN, COINBASE, HEIGHT_LOCKED, NO_RECENT_DUPLICATE.
    The early validator tests COINBASE as a bit flag of the feature byte. *)
Definition COINBASE_OUTPUT : Z := 1.
Definition COINBASE_KERNEL : Z := 1.

Definition BlindingFactor : Type := Z.
Definition Hash : Type := list Byte.byte.

Section Models.
Context `{CryptoAPI}.

Record TransactionInput : Type := mkInput {
  input_features : Z;
  input_commitment : Commitment
}.

Record TransactionOutput : Type := mkOutput {
  output_features : Z;
  output_commitment : Commitment;
  output_rangeproof : list Byte.byte
}.

Record TransactionKernel : Type := mkKernel {
  kernel_features : Z;
  kernel_fee : Z;
  kernel_lock_height : Z;
  kernel_excess : Commitment;
  kernel_excess_signature : list Byte.byte
}.

Record TransactionBody : Type := mkBody {
  m_inputs : list TransactionInput;
  m_outputs : list TransactionOutput;
  m_kernels : list TransactionKernel
}.

Record BlockHeader : Type := mkHeader {
  m_height : Z;
  m_totalKernelOffset : BlindingFactor;
  m_hash : Hash
}.

(** FullBlock.h: header, body and the mutable [m_validated] flag. *)
Record FullBlock : Type := mkBlock {
  m_pBlockHeader : BlockHeader;
  m_transactionBody : TransactionBody;
  m_validated : bool
}.

Definition GetBlockHeader (block : FullBlock) : BlockHeader := m_pBlockHeader block.
Definition GetTransactionBody (block : FullBlock) : TransactionBody := m_transactionBody block.
Definition GetInputs (block : FullBlock) : list TransactionInput := m_inputs (m_transactionBody block).
Definition GetOutputs (block : FullBlock) : list TransactionOutput := m_outputs (m_transactionBody block).
Definition GetKernels (block : FullBlock) : list TransactionKernel := m_kernels (m_transactionBody block).
Definition GetHeight (block : FullBlock) : Z := m_height (m_pBlockHeader block).
Definition GetTotalKernelOffset (block : FullBlock) : BlindingFactor :=
  m_totalKernelOffset (m_pBlockHeader block).
Definition GetHash (block : FullBlock) : Hash := m_hash (m_pBlockHeader block).

(** [std::transform] into a back_inserter, as in GetInputCommitments and
    GetOutputCommitments. *)
Definition GetInputCommitments (block : FullBlock) : list Commitment :=
  map input_commitment (GetInputs block).
Definition GetOutputCommitments (block : FullBlock) : list Commitment :=
  map output_commitment (GetOutputs block).

Definition WasValidated (block : FullBlock) : bool := m_validated block.
Definition MarkAsValidated (block : FullBlock) : FullBlock :=
  mkBlock (m_pBlockHeader block) (m_transactionBody block) true.

(** [(features & COINBASE) == COINBASE], as the early validator writes it
    out. The later validator asks [output.IsCoinbase()] and
    [kernel.IsCoinbase()], whose definitions are outside the embedded sources
    and are taken to be this test. *)
Definition output_IsCoinbase (output : TransactionOutput) : bool :=
  Z.land (output_features output) COINBASE_OUTPUT =? COINBASE_OUTPUT.
Definition kernel_IsCoinbase (kernel : TransactionKernel) : bool :=
  Z.land (kernel_features kernel) COINBASE_KERNEL =? COINBASE_KERNEL.

(** The totals the validators compute over a block. *)
Definition coinbase_output_commitments (block : FullBlock) : list Commitment :=
  map output_commitment (List.filter output_IsCoinbase (GetOutputs block)).
Definition coinbase_kernel_excesses (block : FullBlock) : list Commitment :=
  map kernel_excess (List.filter kernel_IsCoinbase (GetKernels block)).
(** The exact (unbounded) sum of the kernel fees. *)
Definition total_fee (block : FullBlock) : Z :=
  foldr Z.add 0 (map kernel_fee (GetKernels block)).

(** A block is well formed for its C++ type when its [uint64_t] fields are in
    range. *)
Definition kernel_wf (kernel : TransactionKernel) : Prop :=
  U64.in_range (kernel_fee kernel) /\ U64.in_range (kernel_lock_height kernel).
Definition block_wf (block : FullBlock) : Prop :=
  U64.in_range (GetHeight block) /\ Forall kernel_wf (GetKernels block).

End Models.

(** ** The early validator (BlockChain/Validators/BlockValidator.cpp)

    Every check returns [bool]; the Crypto entry points return null pointers
    on failure. *)
Module Legacy.
Section Validator.
Context `{CryptoAPI} `{ConsensusParams}.
(** [m_transactionPool.ValidateTransactionBody(body, withHistory)] *)
Context (ValidateTransactionBody : TransactionBody -> bool -> bool).

(** The loop of VerifyKernelLockHeights: return false at the first kernel
    whose lock height is above the block's height. *)
Fixpoint lock_heights_loop (height : Z) (kernels : list TransactionKernel) : bool :=
  match kernels with
  | [] => true
  | kernel :: rest =>
      if kernel_lock_height kernel >? height then false
      else lock_heights_loop height rest
  end.

Definition VerifyKernelLockHeights (block : FullBlock) : bool :=
  let height := m_height (GetBlockHeader block) in
  lock_heights_loop height (m_kernels (GetTransactionBody block)).

(** The three loops of VerifyCoinbase, each a left-to-right pass that pushes
    onto a vector or updates an accumulator. *)
Definition collect_coinbase_commitments (outputs : list TransactionOutput) : list Commitment :=
  fold_left
    (fun (coinbaseCommitments : list Commitment) output =>
       if Z.land (output_features output) COINBASE_OUTPUT =? COINBASE_OUTPUT
       then coinbaseCommitments ++ [output_commitment output]
       else coinbaseCommitments)
    outputs [].

Definition collect_coinbase_excesses (kernels : list TransactionKernel) : list Commitment :=
  fold_left
    (fun (coinbaseKernelExcesses : list Commitment) kernel =>
       if Z.land (kernel_features kernel) COINBASE_KERNEL =? COINBASE_KERNEL
       then coinbaseKernelExcesses ++ [kernel_excess kernel]
       else coinbaseKernelExcesses)
    kernels [].

Definition reward_with_fees (kernels : list TransactionKernel) : Z :=
  fold_left (fun reward kernel => U64.add reward (kernel_fee kernel)) kernels REWARD.

Definition VerifyCoinbase (block : FullBlock) : bool :=
  let coinbaseCommitments :=
    collect_coinbase_commitments (m_outputs (GetTransactionBody block)) in
  let coinbaseKernelExcesses :=
    collect_coinbase_excesses (m_kernels (GetTransactionBody block)) in
  let reward := reward_with_fees (m_kernels (GetTransactionBody block)) in
  match CommitTransparent reward with
  | None => false
  | Some rewardCommitment =>
      let overCommitment := [rewardCommitment] in
      let pOutputAdjustedSum := AddCommitments coinbaseCommitments overCommitment in
      let pKernelSum := AddCommitments coinbaseKernelExcesses [] in
      match pOutputAdjustedSum, pKernelSum with
      | Some outputAdjustedSum, Some kernelSum =>
          bool_decide (kernelSum = outputAdjustedSum)
      | _, _ => false
      end
  end.

(** The body is a stub in the source: [// TODO: Implement], [return true]. *)
Definition VerifyKernelSums (block : FullBlock) (overage : Z)
    (kernelOffset : BlindingFactor) : bool :=
  true.

Definition IsBlockSelfConsistent (block : FullBlock) : bool :=
  if negb (ValidateTransactionBody (GetTransactionBody block) true) then false
  else if negb (VerifyKernelLockHeights block) then false
  else if negb (VerifyCoinbase block) then false
  else true.

Definition IsBlockValid (block : FullBlock) (previousKernelOffset : BlindingFactor)
    (validateSelfConsistent : bool) : bool :=
  if validateSelfConsistent && negb (IsBlockSelfConsistent block) then false
  else
    let zeroOffset : BlindingFactor := 0 in
    let offsetOpt : option BlindingFactor :=
      if m_totalKernelOffset (GetBlockHeader block) =? previousKernelOffset then
        AddBlindingFactors [m_totalKernelOffset (GetBlockHeader block)]
                           [previousKernelOffset]
      else Some zeroOffset in
    match offsetOpt with
    | None => false
    | Some blockKernelOffset =>
        let kernelSumsValid :=
          VerifyKernelSums block (U64.to_int64 (U64.sub 0 REWARD)) blockKernelOffset in
        if negb kernelSumsValid then false else true
    end.

End Validator.
End Legacy.

(** ** Effects of the later validator

    The later validator throws exceptions, writes to the log and sets the
    block's mutable [m_validated] flag. A computation runs on a machine state
    holding the block object and the journal of what happened, and either
    returns or throws; the state survives a throw. *)
Inductive Check : Type :=
| BodyCheck
| KernelLockHeightsCheck
| CoinbaseCheck.

Inductive LogArg : Type :=
| ArgBlock (hash : Hash)   (* a block, printed through Format() as its hash *)
| ArgText (text : string).

Inductive Event : Type :=
| LOG_TRACE_F (format : string) (args : list LogArg)
| LOG_ERROR_F (format : string) (args : list LogArg)
| Entered (check : Check).   (* control entered one of the three checks *)

Section Effects.
Context `{CryptoAPI}.

Record Machine : Type := mkMachine {
  the_block : FullBlock;
  journal : list Event
}.

Definition Eff (A : Type) : Type := Machine -> result A * Machine.

Definition eff_ret {A} (a : A) : Eff A := fun s => (Return a, s).

Definition eff_bind {A B} (m : Eff A) (f : A -> Eff B) : Eff B :=
  fun s =>
    match m s with
    | (Return a, s') => f a s'
    | (Throw e, s') => (Throw e, s')
    end.

Definition throw {A} (e : exception) : Eff A := fun s => (Throw e, s).

(** [try { m } catch (std::exception& e) { handler e }] *)
Definition try_catch {A} (m : Eff A) (handler : exception -> Eff A) : Eff A :=
  fun s =>
    match m s with
    | (Return a, s') => (Return a, s')
    | (Throw e, s') => handler e s'
    end.

Definition lift_result {A} (r : result A) : Eff A := fun s => (r, s).

Definition emit (ev : Event) : Eff unit :=
  fun s => (Return tt, mkMachine (the_block s) (journal s ++ [ev])).

Definition get_block : Eff FullBlock := fun s => (Return (the_block s), s).

(** [block.MarkAsValidated()] on the block object. *)
Definition mark_as_validated : Eff unit :=
  fun s => (Return tt, mkMachine (MarkAsValidated (the_block s)) (journal s)).

(** A Crypto call of the later code: failure is a CryptoException (its text
    is the library's and plays no role). *)
Definition crypto_call {A} (r : option A) : Eff A :=
  match r with
  | Some a => eff_ret a
  | None => throw (CRYPTO_EXCEPTION "crypto failure")
  end.

End Effects.

#[global] Instance eff_mret `{CryptoAPI} : MRet Eff := @eff_ret _.
#[global] Instance eff_mbind `{CryptoAPI} : MBind Eff :=
  fun A B f m => eff_bind m f.

(** ** Standard algorithms used by the later validator *)

(** [std::any_of] *)
Fixpoint any_of {A} (pred : A -> bool) (l : list A) : bool :=
  match l with
  | [] => false
  | x :: rest => if pred x then true else any_of pred rest
  end.

(** [FunctionalUtil::transform_if(first, last, back_inserter(out), pred, f)]:
    append [f x] to [out] for every [x] that satisfies [pred], in order. *)
Fixpoint transform_if {A B} (pred : A -> bool) (f : A -> B) (l : list A)
    (out : list B) : list B :=
  match l with
  | [] => out
  | x :: rest => transform_if pred f rest (if pred x then out ++ [f x] else out)
  end.

(** [std::accumulate(first, last, init, op)] *)
Definition accumulate {A B} (l : list A) (init : B) (op : B -> A -> B) : B :=
  fold_left op l init.

(** ** The later validator (src/BlockChain/Validators/BlockValidator.cpp) *)
Module BlockValidator.
Section Validator.
Context `{CryptoAPI} `{ConsensusParams}.
(** [TransactionBodyValidator().Validate(body, withHistory)]: returns, or
    throws some exception. *)
Context (Validate : TransactionBody -> bool -> result unit).

Definition VerifyBody (block : FullBlock) : Eff unit :=
  emit (Entered BodyCheck);;
  try_catch
    (lift_result (Validate (GetTransactionBody block) false))
    (fun e =>
       emit (LOG_ERROR_F "Transaction body for block {} failed with error: {}"
               [ArgBlock (GetHash block); ArgText (what e)]);;
       throw (BAD_DATA_EXCEPTION "Failed to validate transaction body")).

Definition VerifyKernelLockHeights (block : FullBlock) : Eff unit :=
  emit (Entered KernelLockHeightsCheck);;
  let blockHeight := GetHeight block in
  let kernels := GetKernels block in
  let invalid :=
    any_of (fun kernel => kernel_lock_height kernel >? blockHeight) kernels in
  if invalid then
    emit (LOG_ERROR_F "Failed to validate kernel lock heights for {}"
            [ArgBlock (GetHash block)]);;
    throw (BAD_DATA_EXCEPTION "Failed to validate kernel lock heights")
  else mret tt.

Definition VerifyCoinbase (block : FullBlock) : Eff unit :=
  emit (Entered CoinbaseCheck);;
  (* Get Coinbase Output Commitments *)
  let blockOutputs := GetOutputs block in
  let coinbaseCommitments :=
    transform_if output_IsCoinbase output_commitment blockOutputs [] in
  (* Get Coinbase Kernel Commitments *)
  let blockKernels := GetKernels block in
  let coinbaseKernelExcesses :=
    transform_if kernel_IsCoinbase kernel_excess blockKernels [] in
  (* Calculate Block Reward *)
  let reward :=
    accumulate blockKernels REWARD
      (fun reward kernel => U64.add reward (kernel_fee kernel)) in
  (* Verify the kernel sum equals the output sum accounting for block fees. *)
  rewardCommitment ← crypto_call (CommitTransparent reward);
  let overCommitment := [rewardCommitment] in
  outputAdjustedSum ← crypto_call (AddCommitments coinbaseCommitments overCommitment);
  kernelSum ← crypto_call (AddCommitments coinbaseKernelExcesses []);
  if negb (bool_decide (kernelSum = outputAdjustedSum)) then
    emit (LOG_ERROR_F "Failed to validate coinbase for {}" [ArgBlock (GetHash block)]);;
    throw (BAD_DATA_EXCEPTION "Failed to validate coinbase")
  else mret tt.

Definition VerifySelfConsistent : Eff unit :=
  block ← get_block;
  if WasValidated block then
    emit (LOG_TRACE_F "Block {} already validated" [ArgBlock (GetHash block)])
  else
    VerifyBody block;;
    VerifyKernelLockHeights block;;
    VerifyCoinbase block;;
    mark_as_validated.

(** One call of VerifySelfConsistent on a block object, with a fresh journal. *)
Definition call_VerifySelfConsistent (block : FullBlock) : result unit * Machine :=
  VerifySelfConsistent (mkMachine block []).

End Validator.
End BlockValidator.

(** ** Slate signatures (src/Wallet/SlateBuilder/SignatureUtil.h)

    The aggregate-signature entry points of the Crypto library, as
    SignatureUtil calls them. [AddPublicKeys] returns its sum by value and
    reports failure by throwing; the signing entry points return null
    pointers on failure. *)
Class SchnorrAPI : Type := {
  SecretKey : Type;
  PublicKey : Type;
  CompactSignature : Type;
  Signature : Type;
  Crypto_AddPublicKeys : list PublicKey -> result PublicKey;
  Crypto_CalculatePartialSignature :
    SecretKey -> SecretKey -> PublicKey -> PublicKey -> Hash -> option CompactSignature;
  Crypto_VerifyPartialSignature :
    CompactSignature -> PublicKey -> PublicKey -> PublicKey -> Hash -> bool;
  Crypto_AggregateSignatures : list CompactSignature -> PublicKey -> option Signature;
  Crypto_VerifyAggregateSignature : Signature -> PublicKey -> Hash -> bool
}.

Module SignatureUtil.
Section Util.
Context `{SchnorrAPI}.

(** A participant's entry of the slate (SlateSignature.h): public excess,
    public nonce and, once signed, the partial signature. *)
Record SlateSignature : Type := mkSlateSignature {
  excess : PublicKey;
  nonce : PublicKey;
  partialOpt : option CompactSignature
}.

(** [for (sig : sigs) pubKeys.push_back(sig.excess);] *)
Definition push_excesses (sigs : list SlateSignature) : list PublicKey :=
  fold_left (fun pubKeys sig => pubKeys ++ [excess sig]) sigs [].

(** [for (sig : sigs) pubNonces.push_back(sig.nonce);] *)
Definition push_nonces (sigs : list SlateSignature) : list PublicKey :=
  fold_left (fun pubNonces sig => pubNonces ++ [nonce sig]) sigs [].

(** [if (sig.partialOpt.has_value()) signatures.push_back(sig.partialOpt.value());] *)
Definition push_partials (sigs : list SlateSignature) : list CompactSignature :=
  fold_left
    (fun signatures sig =>
       match partialOpt sig with
       | Some partial => signatures ++ [partial]
       | None => signatures
       end)
    sigs [].

Definition GeneratePartialSignature (secretKey secretNonce : SecretKey)
    (sigs : list SlateSignature) (message : Hash) : result (option CompactSignature) :=
  let pubKeys := push_excesses sigs in
  let pubNonces := push_nonces sigs in
  sumPubKeys ← Crypto_AddPublicKeys pubKeys;
  sumPubNonces ← Crypto_AddPublicKeys pubNonces;
  mret (Crypto_CalculatePartialSignature secretKey secretNonce sumPubKeys sumPubNonces message).

Definition AggregateSignatures (sigs : list SlateSignature) : result (option Signature) :=
  let pubNonces := push_nonces sigs in
  let signatures := push_partials sigs in
  sumPubNonces ← Crypto_AddPublicKeys pubNonces;
  mret (Crypto_AggregateSignatures signatures sumPubNonces).

(** The second loop of VerifyPartialSignatures: false at the first partial
    signature that does not verify. *)
Fixpoint verify_partials_loop (sumPubKeys sumPubNonces : PublicKey) (message : Hash)
    (sigs : list SlateSignature) : bool :=
  match sigs with
  | [] => true
  | sig :: rest =>
      match partialOpt sig with
      | Some partial =>
          if negb (Crypto_VerifyPartialSignature partial (excess sig)
                     sumPubKeys sumPubNonces message)
          then false
          else verify_partials_loop sumPubKeys sumPubNonces message rest
      | None => verify_partials_loop sumPubKeys sumPubNonces message rest
      end
  end.

Definition VerifyPartialSignatures (sigs : list SlateSignature) (message : Hash)
    : result bool :=
  let pubKeys := push_excesses sigs in
  let pubNonces := push_nonces sigs in
  sumPubKeys ← Crypto_AddPublicKeys pubKeys;
  sumPubNonces ← Crypto_AddPublicKeys pubNonces;
  mret (verify_partials_loop sumPubKeys sumPubNonces message sigs).

Definition VerifyAggregateSignature (aggregateSignature : Signature)
    (sigs : list SlateSignature) (message : Hash) : result bool :=
  let pubKeys := push_excesses sigs in
  sumPubKeys ← Crypto_AddPublicKeys pubKeys;
  mret (Crypto_VerifyAggregateSignature aggregateSignature sumPubKeys message).

End Util.
End SignatureUtil.

(** ** The node's JSON-RPC servers (src/API/Node/NodeServer.cpp) *)
Module NodeServer.

Inductive LogFile : Type := NODE | WALLET.

Section Servers.
(** The handles passed to Create: the HTTP server, the chain, the P2P server. *)
Context {ServerPtr BlockChainPtr P2PServerPtr : Type}.

(** The five handler classes of API/Node/Handlers, each holding the handles
    its constructor receives. *)
Inductive RPCMethod : Type :=
| GetHeaderHandler (pBlockChain : BlockChainPtr)
| GetBlockHandler (pBlockChain : BlockChainPtr)
| GetVersionHandler (pBlockChain : BlockChainPtr)
| GetTipHandler (pBlockChain : BlockChainPtr)
| PushTransactionHandler (pBlockChain : BlockChainPtr) (pP2PServer : P2PServerPtr).

(** Modelled from the spec: RPCServer (Net/Servers/RPC/RPCServer.h) is outside
    the embedded sources; the spec describes it as a method-name → handler
    map registered at boot. [Create] makes a server on an endpoint with no
    method; [AddMethod] binds a name to a handler. *)
Record RPCServer : Type := mkRPCServer {
  m_pServer : ServerPtr;
  m_uri : string;
  m_logFile : LogFile;
  m_methods : gmap string RPCMethod
}.

Definition RPCServer_Create (pServer : ServerPtr) (uri : string) (logFile : LogFile)
    : RPCServer :=
  mkRPCServer pServer uri logFile ∅.

Definition AddMethod (method : string) (pMethod : RPCMethod) (server : RPCServer)
    : RPCServer :=
  mkRPCServer (m_pServer server) (m_uri server) (m_logFile server)
    (<[method := pMethod]> (m_methods server)).

Record NodeServer : Type := mkNodeServer {
  m_pForeignServer : RPCServer;
  m_pOwnerServer : RPCServer
}.

Definition Create (pServer : ServerPtr) (pBlockChain : BlockChainPtr)
    (pP2PServer : P2PServerPtr) : NodeServer :=
  let pForeignServer := RPCServer_Create pServer "/v2/foreign" NODE in
  let pForeignServer := AddMethod "get_header" (GetHeaderHandler pBlockChain) pForeignServer in
  let pForeignServer := AddMethod "get_block" (GetBlockHandler pBlockChain) pForeignServer in
  let pForeignServer := AddMethod "get_version" (GetVersionHandler pBlockChain) pForeignServer in
  let pForeignServer := AddMethod "get_tip" (GetTipHandler pBlockChain) pForeignServer in
  let pForeignServer :=
    AddMethod "push_transaction" (PushTransactionHandler pBlockChain pP2PServer)
      pForeignServer in
  let pOwnerServer := RPCServer_Create pServer "/v2/owner" NODE in
  mkNodeServer pForeignServer pOwnerServer.

(** The method names a server answers to. *)
Definition method_names (server : RPCServer) : gset string := dom (m_methods server).

End Servers.
End NodeServer.

(** ** Wallet restore (Wallet/WalletManagerImpl.cpp) *)
Module WalletManager.

Definition SecureString : Type := string.

(** A 32-byte secret, built from the bytes it is given. *)
Record SecretKey : Type := mkSecretKey { key_bytes : list Byte.byte }.

Section Manager.
(** The collaborators of the wallet manager are outside the embedded sources
    and are taken as they are called: the mnemonic decoder, the seed
    encrypter, the wallet database and the session manager. The database and
    the session manager are objects with state. *)
Context {IWalletDB SessionManager SessionToken EncryptedSeed : Type}.
Context (Mnemonic_ToEntropy :
           SecureString -> option SecureString -> option (list Byte.byte)).
Context (EncryptWalletSeed : SecretKey -> SecureString -> EncryptedSeed).
Context (CreateWallet : string -> EncryptedSeed -> IWalletDB -> bool * IWalletDB).
Context (SessionManager_Login :
           string -> SecretKey -> SessionManager -> SessionToken * SessionManager).

Record WalletManager : Type := mkWalletManager {
  m_pWalletDB : IWalletDB;
  m_sessionManager : SessionManager
}.

Definition Restore (username : string) (password walletWords : SecureString)
    (this : WalletManager) : option SessionToken * WalletManager :=
  let entropyOpt := Mnemonic_ToEntropy walletWords (Some password) in
  match entropyOpt with
  | Some entropy =>
      if (length entropy =? 32)%nat then
        let walletSeed := mkSecretKey entropy in
        let encryptedSeed := EncryptWalletSeed walletSeed password in
        let '(created, walletDB) :=
          CreateWallet username encryptedSeed (m_pWalletDB this) in
        if created then
          let '(token, sessions) :=
            SessionManager_Login username walletSeed (m_sessionManager this) in
          (Some token, mkWalletManager walletDB sessions)
        else (None, mkWalletManager walletDB (m_sessionManager this))
      else (None, this)
  | None => (None, this)
  end.

(** The condition under which Restore goes on to log in: the phrase decodes
    under the password to 32 bytes of entropy and the database creates the
    wallet. *)
Definition restorable (username : string) (password walletWords : SecureString)
    (this : WalletManager) : Prop :=
  exists entropy,
    Mnemonic_ToEntropy walletWords (Some password) = Some entropy /\
    length entropy = 32%nat /\
    fst (CreateWallet username
           (EncryptWalletSeed (mkSecretKey entropy) password)
           (m_pWalletDB this)) = true.

End Manager.
End WalletManager.

(** ** The server's main loop (Server::Run and its Ctrl-C handler) *)
Module Server.

Inductive ESyncStatus : Type :=
| SYNCING_HEADERS
| SYNCING_TXHASHSET
| PROCESSING_TXHASHSET
| TXHASHSET_SYNC_FAILED
| SYNCING_BLOCKS
| NOT_SYNCING.

#[global] Instance ESyncStatus_eq_dec : EqDecision ESyncStatus.
Proof. solve_decision. Defined.

(** What the getters of SyncStatus return at one reading; all [uint64_t]. *)
Record SyncStatus : Type := mkSyncStatus {
  GetStatus : ESyncStatus;
  GetNumActiveConnections : Z;
  GetNetworkHeight : Z;
  GetNetworkDifficulty : Z;
  GetHeaderHeight : Z;
  GetHeaderDifficulty : Z;
  GetBlockHeight : Z;
  GetBlockDifficulty : Z;
  GetDownloaded : Z;
  GetDownloadSize : Z
}.

(** The line feed that the source writes as the escape [\n]. *)
Definition LF : string := String (Ascii.ascii_of_nat 10) EmptyString.

(** Console control events delivered to the handler. *)
Inductive CtrlType : Type :=
| CTRL_C_EVENT
| CTRL_BREAK_EVENT
| CTRL_CLOSE_EVENT
| CTRL_LOGOFF_EVENT
| CTRL_SHUTDOWN_EVENT.

(** What one call of the handler does: the text it prints, the flag it
    leaves, and the BOOL it returns. *)
Record HandlerOutcome : Type := mkHandlerOutcome {
  printed : list string;
  SHUTDOWN_after : bool;
  handled : bool
}.

(** [CtrlHandler]: on Ctrl-C print a notice, set the global flag and return
    TRUE; on any other event return FALSE and leave the flag alone. *)
Definition CtrlHandler (fdwCtrlType : CtrlType) (SHUTDOWN : bool) : HandlerOutcome :=
  match fdwCtrlType with
  | CTRL_C_EVENT =>
      mkHandlerOutcome [LF +:+ LF +:+ "Ctrl-C Pressed" +:+ LF +:+ LF] true true
  | _ => mkHandlerOutcome [] SHUTDOWN false
  end.

(** The steps of Run that the outside can observe, in program order. *)
Inductive Action : Type :=
| SetCurrentThreadName (name : string)
| SetConsoleCtrlHandler
| LoadConfig
| LoggerInitialize
| OpenDatabase
| NewTxHashSetManager
| CreateTransactionPool
| StartBlockChainServer
| StartP2PServer
| RestServerStart
| ClearScreen
| Cout (text : string)
| CoutNumber (n : Z)
| CoutFlush
| SleepSeconds (n : Z)
| RestServerShutdown
| ShutdownP2PServer
| DestroyTransactionPool
| ShutdownBlockChainServer
| DeleteTxHashSetManager
| CloseDatabase
| LoggerFlush.

(** What the environment supplies at the [i]-th pass through the loop: the
    control events delivered since the previous pass, the sync status the P2P
    server reports, and the seconds elapsed since start. *)
Record Environment : Type := mkEnvironment {
  signals : nat -> list CtrlType;
  sync_status : nat -> SyncStatus;
  seconds_running : nat -> Z
}.

(** The handler run on a batch of events. *)
Definition deliver (events : list CtrlType) (SHUTDOWN : bool) : bool :=
  fold_left (fun flag event => SHUTDOWN_after (CtrlHandler event flag)) events SHUTDOWN.

(** [networkHeight > 0 ? (GetHeaderHeight() * 100 / networkHeight) : 0];
    [None] is a division by zero. *)
Definition header_percentage (syncStatus : SyncStatus) : option Z :=
  let networkHeight := GetNetworkHeight syncStatus in
  if networkHeight >? 0
  then U64.div (U64.mul (GetHeaderHeight syncStatus) 100) networkHeight
  else Some 0.

(** [downloadSize > 0 ? (downloaded * 100) / downloadSize : 0] *)
Definition download_percentage (syncStatus : SyncStatus) : option Z :=
  let downloaded := GetDownloaded syncStatus in
  let downloadSize := GetDownloadSize syncStatus in
  if downloadSize >? 0
  then U64.div (U64.mul downloaded 100) downloadSize
  else Some 0.

(** The status line: the if/else chain over the sync status. *)
Definition status_line (syncStatus : SyncStatus) : option (list Action) :=
  let status := GetStatus syncStatus in
  if bool_decide (status = NOT_SYNCING) then
    Some [Cout (LF +:+ "Status: Running")]
  else if bool_decide (status = SYNCING_HEADERS) then
    percentage ← header_percentage syncStatus;
    Some [Cout (LF +:+ "Status: Syncing Headers ("); CoutNumber percentage; Cout "%)"]
  else if bool_decide (status = SYNCING_TXHASHSET) then
    percentage ← download_percentage syncStatus;
    Some [Cout (LF +:+ "Status: Syncing TxHashSet "); CoutNumber (GetDownloaded syncStatus);
          Cout "/"; CoutNumber (GetDownloadSize syncStatus);
          Cout "("; CoutNumber percentage; Cout "%)"]
  else if bool_decide (status = PROCESSING_TXHASHSET) then
    Some [Cout (LF +:+ "Status: Validating TxHashSet")]
  else if bool_decide (status = TXHASHSET_SYNC_FAILED) then
    Some [Cout (LF +:+ "Status: TxHashSet Sync Failed - Trying Again")]
  else if bool_decide (status = SYNCING_BLOCKS) then
    Some [Cout (LF +:+ "Status: Syncing blocks")]
  else Some [].

(** One full pass of the loop body after the flag was read as false. *)
Definition iteration (env : Environment) (i : nat) : option (list Action) :=
  let syncStatus := sync_status env i in
  line ← status_line syncStatus;
  Some ([ClearScreen; Cout "Time Running: "; CoutNumber (seconds_running env i); Cout "s"]
        ++ line
        ++ [Cout (LF +:+ "NumConnections: "); CoutNumber (GetNumActiveConnections syncStatus);
            Cout (LF +:+ "Header Height: "); CoutNumber (GetHeaderHeight syncStatus);
            Cout (LF +:+ "Header Difficulty: "); CoutNumber (GetHeaderDifficulty syncStatus);
            Cout (LF +:+ "Block Height: "); CoutNumber (GetBlockHeight syncStatus);
            Cout (LF +:+ "Block Difficulty: "); CoutNumber (GetBlockDifficulty syncStatus);
            Cout (LF +:+ "Network Height: "); CoutNumber (GetNetworkHeight syncStatus);
            Cout (LF +:+ "Network Difficulty: "); CoutNumber (GetNetworkDifficulty syncStatus);
            Cout (LF +:+ LF +:+ "Press Ctrl-C to exit..."); CoutFlush; SleepSeconds 1]).

Definition startup : list Action :=
  [SetCurrentThreadName "MAIN THREAD"; SetConsoleCtrlHandler; LoadConfig;
   LoggerInitialize; OpenDatabase; NewTxHashSetManager; CreateTransactionPool;
   StartBlockChainServer; StartP2PServer; RestServerStart].

(** Everything Run does after the loop. *)
Definition shutdown_sequence : list Action :=
  [Cout (LF +:+ "SHUTTING DOWN..."); RestServerShutdown; ShutdownP2PServer;
   DestroyTransactionPool; ShutdownBlockChainServer; DeleteTxHashSetManager;
   CloseDatabase; LoggerFlush].

(** How a run ends: the function returned; or the loop was still going when
    the fuel ran out; or a division by zero was reached. Each carries the
    actions taken so far. *)
Inductive Outcome : Type :=
| Returned (trace : list Action)
| StillRunning (trace : list Action)
| UndefinedBehaviour (trace : list Action).

(** [while (true) { if (SHUTDOWN) break; ... }] from pass [i] on, with the
    flag as the handler left it before the pass. *)
Fixpoint main_loop (fuel : nat) (env : Environment) (i : nat) (SHUTDOWN : bool)
    (trace : list Action) : Outcome :=
  match fuel with
  | O => StillRunning trace
  | S fuel' =>
      let SHUTDOWN := deliver (signals env i) SHUTDOWN in
      if SHUTDOWN then Returned (trace ++ shutdown_sequence)
      else
        match iteration env i with
        | None => UndefinedBehaviour trace
        | Some actions => main_loop fuel' env (S i) SHUTDOWN (trace ++ actions)
        end
  end.

(** [std::atomic_bool SHUTDOWN = false;] then Server::Run. *)
Definition Run (fuel : nat) (env : Environment) : Outcome :=
  main_loop fuel env 0 false startup.

(** The flag as the loop reads it at its [i]-th check. *)
Definition flag_at (env : Environment) (i : nat) : bool :=
  fold_left (fun flag k => deliver (signals env k) flag) (seq 0 (S i)) false.

(** The actions of passes [from], [from+1], ..., [from+n-1]. *)
Fixpoint passes (env : Environment) (from n : nat) : list Action :=
  match n with
  | O => []
  | S n' => default [] (iteration env from) ++ passes env (S from) n'
  end.

End Server.

(** ** A concrete commitment group

    Pairs [(v, r)] standing for [v·H + r·G] with component-wise addition: the
    group in which [H] and [G] satisfy no relation. It serves to run the
    validators on concrete blocks. Scalars are reduced modulo the order of
    secp256k1. *)
Module PairGroup.

Definition secp256k1_order : Z :=
  115792089237316195423570985008687907852837564279074904382605163141518161494337.

Definition add (a b : Z * Z) : Z * Z := (a.1 + b.1, a.2 + b.2).
Definition opp (a : Z * Z) : Z * Z := (- a.1, - a.2).

Lemma add_assoc a b c : add a (add b c) = add (add a b) c.
Proof. unfold add; simpl. f_equal; lia. Qed.

Lemma add_comm a b : add a b = add b a.
Proof. unfold add. f_equal; lia. Qed.

Lemma add_zero_l a : add (0, 0) a = a.
Proof. destruct a as [v r]. reflexivity. Qed.

Lemma add_opp_r a : add a (opp a) = (0, 0).
Proof. unfold add, opp; simpl. f_equal; lia. Qed.

#[export] Instance group : PedersenGroup := {|
  Point := Z * Z;
  pzero := (0, 0);
  padd := add;
  popp := opp;
  mulH v := (v, 0);
  mulG r := (0, r);
  scalar_order := secp256k1_order;
  padd_assoc := add_assoc;
  padd_comm := add_comm;
  padd_zero_l := add_zero_l;
  padd_opp_r := add_opp_r
|}.

(** The Crypto entry points over this group. *)
Definition crypto : CryptoAPI := IdealCrypto.

(** The reward of the main network: 60 coins of 10^9 base units. *)
#[export] Instance consensus : ConsensusParams.
Proof. refine {| REWARD := 60000000000 |}. unfold U64.in_range, U64.modulus. lia. Defined.

End PairGroup.

(** ** Facts about the loops *)
Section LoopFacts.
Context {A B : Type}.


Lemma any_of_false_forall (pred : A -> bool) (l : list A) :
  any_of pred l = false <-> forall x, In x l -> pred x = false.
Proof.
  induction l as [|a l IH]; simpl.
  - split; [intros _ x [] | reflexivity].
  - destruct (pred a) eqn:Ha.
    + split; [discriminate | intros Hall; rewrite <- Ha; apply Hall; auto].
    + rewrite IH. split.
      * intros Hall x [Heq | Hin]; [congruence | auto].
      * intros Hall x Hin. apply Hall. auto.
Qed.

Lemma transform_if_acc (pred : A -> bool) (f : A -> B) (l : list A) (out : list B) :
  transform_if pred f l out = out ++ map f (List.filter pred l).
Proof.
  revert out. induction l as [|a l IH]; intros out; simpl.
  - symmetry. apply app_nil_r.
  - rewrite IH. destruct (pred a); simpl.
    + rewrite <- app_assoc. reflexivity.
    + reflexivity.
Qed.

Lemma transform_if_filter_map (pred : A -> bool) (f : A -> B) (l : list A) :
  transform_if pred f l [] = map f (List.filter pred l).
Proof. apply transform_if_acc. Qed.

Lemma push_back_loop_acc (pred : A -> bool) (f : A -> B) (l : list A) (out : list B) :
  fold_left (fun acc x => if pred x then acc ++ [f x] else acc) l out
  = out ++ map f (List.filter pred l).
Proof.
  revert out. induction l as [|a l IH]; intros out; simpl.
  - symmetry. apply app_nil_r.
  - rewrite IH. destruct (pred a); simpl.
    + rewrite <- app_assoc. reflexivity.
    + reflexivity.
Qed.

Lemma push_all_loop (f : A -> B) (l : list A) (out : list B) :
  fold_left (fun acc x => acc ++ [f x]) l out = out ++ map f l.
Proof.
  revert out. induction l as [|a l IH]; intros out; simpl.
  - symmetry. apply app_nil_r.
  - rewrite IH, <- app_assoc. reflexivity.
Qed.

End LoopFacts.

(** The fee accumulator: adding fees one at a time with wrap-around is the
    exact sum reduced once. *)
Lemma fee_loop_wrap {K : Type} (fee : K -> Z) (kernels : list K) (init : Z) :
  U64.wrap (fold_left (fun reward kernel => U64.add reward (fee kernel)) kernels init)
  = U64.wrap (init + foldr Z.add 0 (map fee kernels)).
Proof.
  revert init. induction kernels as [|k kernels IH]; intros init; simpl.
  - f_equal. lia.
  - rewrite IH. unfold U64.add, U64.wrap.
    rewrite Zplus_mod_idemp_l. f_equal. lia.
Qed.

Lemma fee_loop_range {K : Type} (fee : K -> Z) (kernels : list K) (init : Z) :
  U64.in_range init ->
  U64.in_range (fold_left (fun reward kernel => U64.add reward (fee kernel)) kernels init).
Proof.
  revert init. induction kernels as [|k kernels IH]; intros init Hinit; simpl.
  - exact Hinit.
  - apply IH. apply U64.wrap_range.
Qed.

Lemma fee_loop_exact {K : Type} (fee : K -> Z) (kernels : list K) (init : Z) :
  U64.in_range init ->
  fold_left (fun reward kernel => U64.add reward (fee kernel)) kernels init
  = U64.wrap (init + foldr Z.add 0 (map fee kernels)).
Proof.
  intros Hinit. rewrite <- fee_loop_wrap.
  symmetry. apply U64.wrap_small. apply fee_loop_range. exact Hinit.
Qed.

(** ** Running the later validator's checks *)
Section ValidatorRuns.
Context `{CryptoAPI} `{ConsensusParams}.
Context (Validate : TransactionBody -> bool -> result unit).

(** The machine after more events were written to the journal. *)
Definition logged (s : Machine) (events : list Event) : Machine :=
  mkMachine (the_block s) (journal s ++ events).


(** The reward the coinbase check commits to: REWARD plus every kernel fee,
    in 64-bit unsigned arithmetic. *)
Definition coinbase_reward (block : FullBlock) : Z :=
  U64.wrap (REWARD + total_fee block).

(** The three Crypto results the coinbase check needs, when all are there:
    the adjusted output sum and the kernel sum. *)
Definition coinbase_sums (block : FullBlock) : option (Commitment * Commitment) :=
  rewardCommitment ← CommitTransparent (coinbase_reward block);
  outputAdjustedSum ←
    AddCommitments (coinbase_output_commitments block) [rewardCommitment];
  kernelSum ← AddCommitments (coinbase_kernel_excesses block) [];
  Some (outputAdjustedSum, kernelSum).

(** The verdicts of the lock-height and coinbase checks, as functions of the
    block alone. *)
Definition lock_heights_pass (block : FullBlock) : bool :=
  negb (any_of (fun kernel => kernel_lock_height kernel >? GetHeight block)
          (GetKernels block)).

Definition coinbase_passes (block : FullBlock) : bool :=
  match coinbase_sums block with
  | Some (outputAdjustedSum, kernelSum) => bool_decide (kernelSum = outputAdjustedSum)
  | None => false
  end.

Lemma logged_logged s e1 e2 : logged (logged s e1) e2 = logged s (e1 ++ e2).
Proof. unfold logged; simpl. rewrite <- app_assoc. reflexivity. Qed.

Lemma VerifyBody_run block s :
  BlockValidator.VerifyBody Validate block s =
  match Validate (GetTransactionBody block) false with
  | Return _ => (Return tt, logged s [Entered BodyCheck])
  | Throw e =>
      (Throw (BAD_DATA_EXCEPTION "Failed to validate transaction body"),
       logged s [Entered BodyCheck;
                 LOG_ERROR_F "Transaction body for block {} failed with error: {}"
                   [ArgBlock (GetHash block); ArgText (what e)]])
  end.
Proof.
  unfold BlockValidator.VerifyBody, mbind, eff_mbind, eff_bind, try_catch,
    lift_result, emit, throw, logged; simpl.
  destruct (Validate (GetTransactionBody block) false) as [[]|e]; simpl.
  - reflexivity.
  - rewrite <- app_assoc. reflexivity.
Qed.

Lemma VerifyKernelLockHeights_run block s :
  BlockValidator.VerifyKernelLockHeights block s =
  if any_of (fun kernel => kernel_lock_height kernel >? GetHeight block) (GetKernels block)
  then (Throw (BAD_DATA_EXCEPTION "Failed to validate kernel lock heights"),
        logged s [Entered KernelLockHeightsCheck;
                  LOG_ERROR_F "Failed to validate kernel lock heights for {}"
                    [ArgBlock (GetHash block)]])
  else (Return tt, logged s [Entered KernelLockHeightsCheck]).
Proof.
  unfold BlockValidator.VerifyKernelLockHeights, mbind, eff_mbind, eff_bind,
    emit, throw, logged, mret, eff_mret, eff_ret; simpl.
  destruct (any_of _ _); simpl.
  - rewrite <- app_assoc. reflexivity.
  - reflexivity.
Qed.

Lemma coinbase_reward_accumulate block :
  accumulate (GetKernels block) REWARD
    (fun reward kernel => U64.add reward (kernel_fee kernel))
  = coinbase_reward block.
Proof.
  unfold accumulate, coinbase_reward, total_fee.
  apply fee_loop_exact. apply REWARD_range.
Qed.

Lemma VerifyCoinbase_run block s :
  BlockValidator.VerifyCoinbase block s =
  match coinbase_sums block with
  | None => (Throw (CRYPTO_EXCEPTION "crypto failure"), logged s [Entered CoinbaseCheck])
  | Some (outputAdjustedSum, kernelSum) =>
      if bool_decide (kernelSum = outputAdjustedSum)
      then (Return tt, logged s [Entered CoinbaseCheck])
      else (Throw (BAD_DATA_EXCEPTION "Failed to validate coinbase"),
            logged s [Entered CoinbaseCheck;
                      LOG_ERROR_F "Failed to validate coinbase for {}"
                        [ArgBlock (GetHash block)]])
  end.
Proof.
  unfold BlockValidator.VerifyCoinbase, coinbase_sums.
  rewrite coinbase_reward_accumulate, !transform_if_filter_map.
  fold (coinbase_output_commitments block) (coinbase_kernel_excesses block).
  unfold mbind, eff_mbind, eff_bind, emit, crypto_call, throw, logged,
    mret, eff_mret, eff_ret; simpl.
  destruct (CommitTransparent (coinbase_reward block)) as [rc|]; simpl; [|reflexivity].
  destruct (AddCommitments (coinbase_output_commitments block) [rc]) as [out|];
    simpl; [|reflexivity].
  destruct (AddCommitments (coinbase_kernel_excesses block) []) as [ks|];
    simpl; [|reflexivity].
  destruct (bool_decide (ks = out)); simpl.
  - reflexivity.
  - rewrite <- app_assoc. reflexivity.
Qed.

(** The loops of the early VerifyCoinbase compute the same lists and the
    same reward as the algorithms of the later one. *)
Lemma legacy_coinbase_lists (block : FullBlock) :
  Legacy.collect_coinbase_commitments (m_outputs (GetTransactionBody block))
  = coinbase_output_commitments block
  /\ Legacy.collect_coinbase_excesses (m_kernels (GetTransactionBody block))
     = coinbase_kernel_excesses block
  /\ Legacy.reward_with_fees (m_kernels (GetTransactionBody block))
     = coinbase_reward block.
Proof.
  split; [|split].
  - unfold Legacy.collect_coinbase_commitments, coinbase_output_commitments.
    exact (push_back_loop_acc output_IsCoinbase output_commitment _ []).
  - unfold Legacy.collect_coinbase_excesses, coinbase_kernel_excesses.
    exact (push_back_loop_acc kernel_IsCoinbase kernel_excess _ []).
  - unfold Legacy.reward_with_fees, coinbase_reward, total_fee.
    apply fee_loop_exact. apply REWARD_range.
Qed.

Lemma Legacy_VerifyCoinbase_verdict (block : FullBlock) :
  Legacy.VerifyCoinbase block = coinbase_passes block.
Proof.
  unfold Legacy.VerifyCoinbase, coinbase_passes, coinbase_sums.
  destruct (legacy_coinbase_lists block) as (-> & -> & ->).
  destruct (CommitTransparent (coinbase_reward block)) as [rc|]; simpl; [|reflexivity].
  destruct (AddCommitments (coinbase_output_commitments block) [rc]) as [out|];
    simpl; [|reflexivity].
  destruct (AddCommitments (coinbase_kernel_excesses block) []) as [ks|];
    reflexivity.
Qed.


End ValidatorRuns.

Section SelfConsistentRuns.
Context `{CryptoAPI} `{ConsensusParams}.
Context (Validate : TransactionBody -> bool -> result unit).

(** The verdict of the body check. *)
Definition body_passes (block : FullBlock) : bool :=
  returned (Validate (GetTransactionBody block) false).

(** The journal shows that one of the three checks was entered. *)
Definition ran_a_check (events : list Event) : Prop :=
  exists check, In (Entered check) events.

Lemma VerifySelfConsistent_validated s :
  WasValidated (the_block s) = true ->
  BlockValidator.VerifySelfConsistent Validate s =
  (Return tt,
   logged s [LOG_TRACE_F "Block {} already validated" [ArgBlock (GetHash (the_block s))]]).
Proof.
  intros Hflag.
  unfold BlockValidator.VerifySelfConsistent, mbind, eff_mbind, eff_bind, get_block.
  rewrite Hflag. reflexivity.
Qed.

Lemma VerifySelfConsistent_unvalidated s :
  WasValidated (the_block s) = false ->
  BlockValidator.VerifySelfConsistent Validate s =
  let block := the_block s in
  match Validate (GetTransactionBody block) false with
  | Throw e =>
      (Throw (BAD_DATA_EXCEPTION "Failed to validate transaction body"),
       logged s [Entered BodyCheck;
                 LOG_ERROR_F "Transaction body for block {} failed with error: {}"
                   [ArgBlock (GetHash block); ArgText (what e)]])
  | Return _ =>
      if any_of (fun kernel => kernel_lock_height kernel >? GetHeight block)
           (GetKernels block)
      then
        (Throw (BAD_DATA_EXCEPTION "Failed to validate kernel lock heights"),
         logged s [Entered BodyCheck; Entered KernelLockHeightsCheck;
                   LOG_ERROR_F "Failed to validate kernel lock heights for {}"
                     [ArgBlock (GetHash block)]])
      else
        match coinbase_sums block with
        | None =>
            (Throw (CRYPTO_EXCEPTION "crypto failure"),
             logged s [Entered BodyCheck; Entered KernelLockHeightsCheck;
                       Entered CoinbaseCheck])
        | Some (outputAdjustedSum, kernelSum) =>
            if bool_decide (kernelSum = outputAdjustedSum)
            then
              (Return tt,
               mkMachine (MarkAsValidated block)
                 (journal s ++ [Entered BodyCheck; Entered KernelLockHeightsCheck;
                                Entered CoinbaseCheck]))
            else
              (Throw (BAD_DATA_EXCEPTION "Failed to validate coinbase"),
               logged s [Entered BodyCheck; Entered KernelLockHeightsCheck;
                         Entered CoinbaseCheck;
                         LOG_ERROR_F "Failed to validate coinbase for {}"
                           [ArgBlock (GetHash block)]])
        end
  end.
Proof.
  intros Hflag.
  unfold BlockValidator.VerifySelfConsistent, mbind, eff_mbind, eff_bind, get_block.
  rewrite Hflag. cbv zeta.
  rewrite VerifyBody_run.
  destruct (Validate (GetTransactionBody (the_block s)) false) as [[]|e]; [|reflexivity].
  rewrite VerifyKernelLockHeights_run.
  destruct (any_of _ _).
  { rewrite logged_logged. reflexivity. }
  rewrite VerifyCoinbase_run, !logged_logged.
  destruct (coinbase_sums (the_block s)) as [[out ks]|]; [|reflexivity].
  destruct (bool_decide (ks = out)); reflexivity.
Qed.

End SelfConsistentRuns.

(** ** Kernel lock heights *)
Section LockHeights.
Context `{CryptoAPI} `{ConsensusParams}.

Lemma lock_heights_loop_any_of (height : Z) (kernels : list TransactionKernel) :
  Legacy.lock_heights_loop height kernels
  = negb (any_of (fun kernel => kernel_lock_height kernel >? height) kernels).
Proof.
  induction kernels as [|kernel rest IH]; simpl.
  - reflexivity.
  - destruct (kernel_lock_height kernel >? height); [reflexivity | exact IH].
Qed.


Lemma any_of_lock_respected (block : FullBlock) :
  (forall kernel, In kernel (GetKernels block) ->
                  kernel_lock_height kernel <= GetHeight block) ->
  any_of (fun kernel => kernel_lock_height kernel >? GetHeight block) (GetKernels block)
  = false.
Proof.
  intros Hall. apply any_of_false_forall. intros kernel Hin.
  specialize (Hall kernel Hin). destruct (Z.gtb_spec (kernel_lock_height kernel) (GetHeight block)).
  - lia.
  - reflexivity.
Qed.


End LockHeights.

(** ** The coinbase check over the commitment group *)
Section CoinbaseIdentity.
Context `{PedersenGroup} `{ConsensusParams}.

(** The coinbase identity for a given reward value: the sum of the
    coinbase-marked output commitments minus [reward·H] equals the sum of the
    coinbase-marked kernel excesses. *)
Definition coinbase_identity (reward : Z) (block : @FullBlock IdealCrypto) : Prop :=
  psub (psum (coinbase_output_commitments block)) (mulH reward)
  = psum (coinbase_kernel_excesses block).

Lemma popp_zero : popp pzero = pzero.
Proof. rewrite <- (padd_zero_l (popp pzero)). apply padd_opp_r. Qed.

Lemma psub_zero_r a : psub a pzero = a.
Proof. unfold psub. rewrite popp_zero. apply padd_zero_r. Qed.

Lemma ideal_coinbase_sums (block : @FullBlock IdealCrypto) :
  coinbase_sums block
  = Some (psub (psum (coinbase_output_commitments block)) (mulH (coinbase_reward block)),
          psum (coinbase_kernel_excesses block)).
Proof.
  unfold coinbase_sums; simpl.
  rewrite padd_zero_r, psub_zero_r. reflexivity.
Qed.

Lemma Legacy_VerifyCoinbase_ideal (block : @FullBlock IdealCrypto) :
  Legacy.VerifyCoinbase block
  = bool_decide (psum (coinbase_kernel_excesses block)
                 = psub (psum (coinbase_output_commitments block))
                     (mulH (coinbase_reward block))).
Proof.
  rewrite Legacy_VerifyCoinbase_verdict. unfold coinbase_passes.
  rewrite ideal_coinbase_sums. reflexivity.
Qed.

(** Over the commitment group the verdict of the coinbase check is the
    coinbase identity for the reward the code commits to. *)
Lemma coinbase_passes_ideal (block : @FullBlock IdealCrypto) :
  coinbase_passes block = true <-> coinbase_identity (coinbase_reward block) block.
Proof.
  unfold coinbase_passes, coinbase_identity. rewrite ideal_coinbase_sums.
  rewrite bool_decide_eq_true. split; intros Heq; symmetry; exact Heq.
Qed.

(** Without overflow the reward committed to is the exact sum. *)
Lemma coinbase_reward_exact (block : @FullBlock IdealCrypto) :
  0 <= total_fee block ->
  REWARD + total_fee block < U64.modulus ->
  coinbase_reward block = REWARD + total_fee block.
Proof.
  intros Hfee Hsum. unfold coinbase_reward. apply U64.wrap_small.
  pose proof REWARD_range as Hr. unfold U64.in_range in *. lia.
Qed.

(** C3 (amended). The coinbase check accepts a block exactly when the sum of
    the commitments of the coinbase-marked outputs minus the transparent
    commitment to the reward equals the sum of the excess commitments of the
    coinbase-marked kernels, where the reward is REWARD plus the fees of all
    kernels computed in 64-bit unsigned arithmetic, that is reduced modulo
    2^64. Equivalently the coinbase output sum equals the coinbase kernel sum
    plus that reward times H. A block violating the identity is rejected: the
    later validator throws the BadData error "Failed to validate coinbase",
    the early one returns false. *)
Theorem coinbase_check_iff (block : @FullBlock IdealCrypto) (s : Machine) :
  (fst (BlockValidator.VerifyCoinbase block s) = Return tt
   <-> coinbase_identity (U64.wrap (REWARD + total_fee block)) block)
  /\ (fst (BlockValidator.VerifyCoinbase block s)
        = Throw (BAD_DATA_EXCEPTION "Failed to validate coinbase")
      <-> ~ coinbase_identity (U64.wrap (REWARD + total_fee block)) block)
  /\ (Legacy.VerifyCoinbase block = true
      <-> coinbase_identity (U64.wrap (REWARD + total_fee block)) block)
  /\ (coinbase_identity (U64.wrap (REWARD + total_fee block)) block
      <-> psum (coinbase_output_commitments block)
          = padd (psum (coinbase_kernel_excesses block))
                 (mulH (U64.wrap (REWARD + total_fee block)))).
Proof.
  fold (coinbase_reward block). unfold coinbase_identity.
  rewrite VerifyCoinbase_run, ideal_coinbase_sums, Legacy_VerifyCoinbase_ideal.
  split; [|split; [|split]].
  - case_bool_decide as Heq; simpl; split; intros Hx;
      [symmetry; exact Heq | reflexivity | discriminate | congruence].
  - case_bool_decide as Heq; simpl; split; intros Hx;
      [discriminate | congruence | congruence | reflexivity].
  - rewrite bool_decide_eq_true. split; intros Hx; symmetry; exact Hx.
  - apply psub_eq_iff.
Qed.

(** When the fees do not overflow the 64-bit accumulator, the check is the
    identity for the exact sum of REWARD and the fees. *)
Lemma coinbase_check_exact_without_overflow (block : @FullBlock IdealCrypto)
    (s : Machine) :
  0 <= total_fee block ->
  REWARD + total_fee block < U64.modulus ->
  (fst (BlockValidator.VerifyCoinbase block s) = Return tt
   <-> coinbase_identity (REWARD + total_fee block) block)
  /\ (Legacy.VerifyCoinbase block = true
      <-> coinbase_identity (REWARD + total_fee block) block).
Proof.
  intros Hfee Hsum.
  rewrite <- (coinbase_reward_exact block Hfee Hsum), <- coinbase_passes_ideal.
  rewrite Legacy_VerifyCoinbase_verdict, VerifyCoinbase_run.
  unfold coinbase_passes.
  destruct (coinbase_sums block) as [[out ks]|].
  - destruct (bool_decide (ks = out)); simpl; split; split;
      first [reflexivity | discriminate | trivial].
  - simpl. split; split; discriminate.
Qed.

(** With self-consistency not asked for, the early IsBlockValid accepts every
    block: nothing of the block is looked at besides its kernel offset. *)
Lemma IsBlockValid_unchecked_accepts (pool : TransactionBody -> bool -> bool)
    (block : @FullBlock IdealCrypto) (previousKernelOffset : BlindingFactor) :
  Legacy.IsBlockValid pool block previousKernelOffset false = true.
Proof.
  unfold Legacy.IsBlockValid. simpl.
  destruct (m_totalKernelOffset (GetBlockHeader block) =? previousKernelOffset);
    reflexivity.
Qed.

End CoinbaseIdentity.

(** ** The commitment-sum balance of a block *)
Section KernelSums.
Context `{PedersenGroup}.

(** Modelled from the spec: invariant (I1), the commitment-sum balance of a
    block for a given overage and kernel offset: the sum of the output
    commitments minus the sum of the input commitments minus
    [(reward + fees)·H] equals the sum of the kernel excesses plus
    [kernelOffset·G]. The reward is the negated overage, as IsBlockValid
    passes it ([0 - Consensus::REWARD]). *)
Definition kernel_sums_balance (block : @FullBlock IdealCrypto) (overage : Z)
    (kernelOffset : BlindingFactor) : Prop :=
  psub (psub (psum (GetOutputCommitments block)) (psum (GetInputCommitments block)))
       (mulH (- overage + total_fee block))
  = padd (psum (map kernel_excess (GetKernels block))) (mulG kernelOffset).

End KernelSums.

(** ** Concrete blocks *)
Module Blocks.
Import PairGroup.

(** A coinbase output worth the reward with blinding factor 7, and the
    coinbase kernel whose excess is [7·G]. *)
Definition coinbase_output : @TransactionOutput crypto :=
  mkOutput COINBASE_OUTPUT (60000000000, 7) [].

Definition coinbase_kernel (fee : Z) : @TransactionKernel crypto :=
  mkKernel COINBASE_KERNEL fee 0 (0, 7) [].

(** A plain output of value 5 that no input and no kernel accounts for. *)
Definition minted_output : @TransactionOutput crypto :=
  mkOutput 0 (5, 3) [].

Definition plain_kernel (fee : Z) : @TransactionKernel crypto :=
  mkKernel 0 fee 0 (0, 1) [].

(** A block at height 1 that passes the self-consistency checks and creates
    5 units out of nothing. *)
Definition unbalanced_block : @FullBlock crypto :=
  mkBlock (mkHeader 1 0 [])
          (mkBody [] [coinbase_output; minted_output] [coinbase_kernel 0])
          false.

(** A block whose two kernel fees, [2^63] each, add up to [2^64]. *)
Definition overflow_block : @FullBlock crypto :=
  mkBlock (mkHeader 1 0 [])
          (mkBody [] [coinbase_output] [coinbase_kernel (2 ^ 63); plain_kernel (2 ^ 63)])
          false.

(** A pool that accepts every transaction body. *)
Definition permissive_pool : @TransactionBody crypto -> bool -> bool := fun _ _ => true.

(** Closed range facts [0 <= c < 2^64], by evaluation. *)
Ltac solve_in_range :=
  unfold U64.in_range; split; [apply Z.leb_le | apply Z.ltb_lt]; vm_compute; reflexivity.

(** The stub accepts whatever it is given. *)
Lemma VerifyKernelSums_always_true `{CryptoAPI} (block : FullBlock) (overage : Z)
    (kernelOffset : BlindingFactor) :
  Legacy.VerifyKernelSums block overage kernelOffset = true.
Proof. reflexivity. Qed.

(** C1 (the code at the failing input). The early IsBlockValid, asked to
    validate self-consistency as well, accepts [unbalanced_block]: the block
    is self-consistent (body accepted by the pool, lock heights and coinbase
    identity hold), yet its commitment sums do not balance for the overage
    and the kernel offset that IsBlockValid passes to VerifyKernelSums, which
    returns true all the same. *)
Theorem IsBlockValid_accepts_unbalanced_block :
  Legacy.IsBlockValid permissive_pool unbalanced_block 0 true = true
  /\ Legacy.IsBlockSelfConsistent permissive_pool unbalanced_block = true
  /\ Legacy.VerifyKernelSums unbalanced_block
       (U64.to_int64 (U64.sub 0 REWARD)) 0 = true
  /\ ~ kernel_sums_balance unbalanced_block (U64.to_int64 (U64.sub 0 REWARD)) 0.
Proof.
  split; [|split; [|split]].
  - vm_compute. reflexivity.
  - vm_compute. reflexivity.
  - reflexivity.
  - unfold kernel_sums_balance. vm_compute. intros Heq. discriminate Heq.
Qed.

(** C3 (counterexample). On [overflow_block] the kernel fees sum to [2^64],
    the 64-bit accumulator wraps back to REWARD, and both validators accept
    the block, although the identity fails for the exact sum of REWARD and
    the fees. *)
Lemma coinbase_check_overflow_counterexample :
  block_wf overflow_block
  /\ total_fee overflow_block = 2 ^ 64
  /\ fst (BlockValidator.VerifyCoinbase overflow_block
            (mkMachine overflow_block [])) = Return tt
  /\ Legacy.VerifyCoinbase overflow_block = true
  /\ ~ coinbase_identity (REWARD + total_fee overflow_block) overflow_block.
Proof.
  split; [|split; [|split; [|split]]].
  - split; [solve_in_range |].
    simpl. repeat (apply List.Forall_cons; [split; solve_in_range |]).
    apply List.Forall_nil.
  - reflexivity.
  - vm_compute. reflexivity.
  - vm_compute. reflexivity.
  - unfold coinbase_identity. vm_compute. intros Heq. discriminate Heq.
Qed.

End Blocks.

(** ** Errors of the body validator, and the validated flag *)
Section SelfConsistency.
Context `{CryptoAPI} `{ConsensusParams}.

(** The machine after [n] further calls of VerifySelfConsistent. *)
Fixpoint after_calls (Validate : TransactionBody -> bool -> result unit)
    (n : nat) (s : Machine) : Machine :=
  match n with
  | O => s
  | S n' => after_calls Validate n' (snd (BlockValidator.VerifySelfConsistent Validate s))
  end.

(** The one journal line of a call on a validated block. *)
Definition already_validated_line (block : FullBlock) : Event :=
  LOG_TRACE_F "Block {} already validated" [ArgBlock (GetHash block)].

Lemma not_ran_a_check_trace_line (block : FullBlock) :
  ~ ran_a_check [already_validated_line block].
Proof. intros (check & [Heq | []]). discriminate Heq. Qed.

Lemma after_calls_validated Validate n s :
  WasValidated (the_block s) = true ->
  the_block (after_calls Validate n s) = the_block s.
Proof.
  revert s. induction n as [|n IH]; intros s Hflag; simpl.
  - reflexivity.
  - rewrite VerifySelfConsistent_validated by exact Hflag. simpl.
    rewrite IH by exact Hflag. reflexivity.
Qed.

(** C5. Whatever exception the body validator throws, of whatever class,
    VerifyBody throws the BadData error "Failed to validate transaction body"
    in its place, and so does VerifySelfConsistent on a block not yet marked
    validated: the error class a caller observes from body checking is
    BadData and never the class of the original exception. *)
Theorem body_errors_lifted_to_bad_data
    (Validate : TransactionBody -> bool -> result unit)
    (block : FullBlock) (s : Machine) (e : exception) :
  Validate (GetTransactionBody block) false = Throw e ->
  fst (BlockValidator.VerifyBody Validate block s)
    = Throw (BAD_DATA_EXCEPTION "Failed to validate transaction body")
  /\ thrown_class (fst (BlockValidator.VerifyBody Validate block s)) = Some BadDataError
  /\ (WasValidated block = false ->
      fst (BlockValidator.call_VerifySelfConsistent Validate block)
        = Throw (BAD_DATA_EXCEPTION "Failed to validate transaction body")
      /\ the_block (snd (BlockValidator.call_VerifySelfConsistent Validate block)) = block).
Proof.
  intros Hthrow. rewrite VerifyBody_run, Hthrow. simpl.
  split; [reflexivity | split; [reflexivity |]].
  intros Hflag. unfold BlockValidator.call_VerifySelfConsistent.
  rewrite VerifySelfConsistent_unvalidated by exact Hflag.
  cbv zeta. simpl the_block. rewrite Hthrow. split; reflexivity.
Qed.

(** Whether or not the body validator throws, VerifyBody only ever returns
    or throws a BadData error. *)
Lemma VerifyBody_error_class
    (Validate : TransactionBody -> bool -> result unit) (block : FullBlock) (s : Machine) :
  thrown_class (fst (BlockValidator.VerifyBody Validate block s)) = None
  \/ thrown_class (fst (BlockValidator.VerifyBody Validate block s)) = Some BadDataError.
Proof.
  rewrite VerifyBody_run.
  destruct (Validate (GetTransactionBody block) false) as [[]|e]; simpl; auto.
Qed.

(** C8. Let a call of VerifySelfConsistent on a machine [s] end with result
    [r] in machine [s']. If it returned, the block is marked validated
    afterwards, and every later call on that block object, after any number
    of calls in between and whatever the body validator would now say,
    returns at once: it leaves the block as it is and adds to the journal
    only the line "already validated", so none of the three checks runs
    again. If the block was not marked before and is marked afterwards, the
    call returned, all three checks passed, and the journal shows that they
    were entered in order (body, lock heights, coinbase). If the call threw,
    the block and its flag are unchanged. *)
Theorem VerifySelfConsistent_idempotent
    (Validate : TransactionBody -> bool -> result unit)
    (s s' : Machine) (r : result unit) :
  BlockValidator.VerifySelfConsistent Validate s = (r, s') ->
  (r = Return tt ->
   WasValidated (the_block s') = true
   /\ forall (Validate' : TransactionBody -> bool -> result unit) (n : nat),
        let t := after_calls Validate' n s' in
        BlockValidator.VerifySelfConsistent Validate' t
          = (Return tt, logged t [already_validated_line (the_block s')])
        /\ the_block t = the_block s'
        /\ ~ ran_a_check [already_validated_line (the_block s')])
  /\ (WasValidated (the_block s) = false ->
      WasValidated (the_block s') = true ->
      r = Return tt
      /\ body_passes Validate (the_block s) = true
      /\ lock_heights_pass (the_block s) = true
      /\ coinbase_passes (the_block s) = true
      /\ journal s' = journal s ++ [Entered BodyCheck; Entered KernelLockHeightsCheck;
                                    Entered CoinbaseCheck])
  /\ (forall e, r = Throw e -> the_block s' = the_block s).
Proof.
  intros Hcall.
  assert (Hshape :
    (WasValidated (the_block s) = true /\ r = Return tt /\ the_block s' = the_block s)
    \/ (WasValidated (the_block s) = false /\ r = Return tt
        /\ the_block s' = MarkAsValidated (the_block s)
        /\ body_passes Validate (the_block s) = true
        /\ lock_heights_pass (the_block s) = true
        /\ coinbase_passes (the_block s) = true
        /\ journal s' = journal s ++ [Entered BodyCheck; Entered KernelLockHeightsCheck;
                                      Entered CoinbaseCheck])
    \/ (WasValidated (the_block s) = false /\ (exists e, r = Throw e)
        /\ the_block s' = the_block s)).
  { destruct (WasValidated (the_block s)) eqn:Hflag.
    - left. rewrite VerifySelfConsistent_validated in Hcall by exact Hflag.
      injection Hcall as <- <-. auto.
    - right. rewrite VerifySelfConsistent_unvalidated in Hcall by exact Hflag.
      cbv zeta in Hcall.
      unfold body_passes, lock_heights_pass, coinbase_passes.
      destruct (Validate _ _) as [[]|e0];
        [|injection Hcall as <- <-; right; eauto].
      destruct (any_of _ _); [injection Hcall as <- <-; right; eauto|].
      destruct (coinbase_sums (the_block s)) as [[out ks]|];
        [|injection Hcall as <- <-; right; eauto].
      destruct (bool_decide (ks = out));
        injection Hcall as <- <-; [left | right]; simpl; eauto 10. }
  assert (Hlater : WasValidated (the_block s') = true ->
    forall (Validate' : TransactionBody -> bool -> result unit) (n : nat),
      let t := after_calls Validate' n s' in
      BlockValidator.VerifySelfConsistent Validate' t
        = (Return tt, logged t [already_validated_line (the_block s')])
      /\ the_block t = the_block s'
      /\ ~ ran_a_check [already_validated_line (the_block s')]).
  { intros Hflag' Validate' n t.
    assert (Ht : the_block t = the_block s')
      by (apply after_calls_validated; exact Hflag').
    split; [|split; [exact Ht | apply not_ran_a_check_trace_line]].
    rewrite VerifySelfConsistent_validated by (rewrite Ht; exact Hflag').
    unfold already_validated_line. rewrite Ht. reflexivity. }
  split; [|split].
  - intros Hr.
    assert (Hflag' : WasValidated (the_block s') = true).
    { destruct Hshape as [(Hflag & _ & ->) | [(_ & _ & -> & _) | (_ & (e & ->) & _)]].
      - exact Hflag.
      - reflexivity.
      - discriminate Hr. }
    split; [exact Hflag' | apply Hlater; exact Hflag'].
  - intros Hbefore Hafter.
    destruct Hshape as [(Hflag & _) | [(_ & Hr & _ & Hb & Hl & Hc & Hj) | (_ & _ & Hsame)]].
    + congruence.
    + auto.
    + rewrite Hsame in Hafter. congruence.
  - intros e ->.
    destruct Hshape as [(_ & Hr & _) | [(_ & Hr & _) | (_ & _ & Hsame)]];
      [discriminate Hr | discriminate Hr | exact Hsame].
Qed.

End SelfConsistency.

(** ** The aggregate signature of a slate *)
Section AggregateSignature.
Context `{SchnorrAPI}.

Lemma push_excesses_map (sigs : list SignatureUtil.SlateSignature) :
  SignatureUtil.push_excesses sigs = map SignatureUtil.excess sigs.
Proof. exact (push_all_loop SignatureUtil.excess sigs []). Qed.

Lemma push_nonces_map (sigs : list SignatureUtil.SlateSignature) :
  SignatureUtil.push_nonces sigs = map SignatureUtil.nonce sigs.
Proof. exact (push_all_loop SignatureUtil.nonce sigs []). Qed.

Lemma push_partials_acc (sigs : list SignatureUtil.SlateSignature)
    (out : list CompactSignature) :
  fold_left
    (fun signatures sig =>
       match SignatureUtil.partialOpt sig with
       | Some partial => signatures ++ [partial]
       | None => signatures
       end) sigs out
  = out ++ omap SignatureUtil.partialOpt sigs.
Proof.
  revert out. induction sigs as [|sig sigs IH]; intros out; simpl.
  - symmetry. apply app_nil_r.
  - rewrite IH. destruct (SignatureUtil.partialOpt sig); simpl.
    + rewrite <- app_assoc. reflexivity.
    + reflexivity.
Qed.

Lemma push_partials_omap (sigs : list SignatureUtil.SlateSignature) :
  SignatureUtil.push_partials sigs = omap SignatureUtil.partialOpt sigs.
Proof. exact (push_partials_acc sigs []). Qed.


End AggregateSignature.

(** ** The foreign JSON-RPC methods *)
Section ForeignMethods.
Context {ServerPtr BlockChainPtr P2PServerPtr : Type}.

(** C6. NodeServer::Create registers on the server of endpoint /v2/foreign
    exactly the five methods get_header, get_block, get_version, get_tip and
    push_transaction, each bound to its handler, and no other name; the
    owner server, on /v2/owner, gets no method. *)
Theorem foreign_methods_exactly_five
    (pServer : ServerPtr) (pBlockChain : BlockChainPtr) (pP2PServer : P2PServerPtr) :
  let node := NodeServer.Create pServer pBlockChain pP2PServer in
  let foreign := NodeServer.m_pForeignServer node in
  NodeServer.m_uri foreign = "/v2/foreign"
  /\ NodeServer.method_names foreign
     = {[ "get_header"; "get_block"; "get_version"; "get_tip"; "push_transaction" ]}
  /\ (forall name : string,
        is_Some (NodeServer.m_methods foreign !! name)
        <-> In name ["get_header"; "get_block"; "get_version"; "get_tip";
                     "push_transaction"])
  /\ NodeServer.m_methods foreign !! "get_header"
     = Some (NodeServer.GetHeaderHandler pBlockChain)
  /\ NodeServer.m_methods foreign !! "get_block"
     = Some (NodeServer.GetBlockHandler pBlockChain)
  /\ NodeServer.m_methods foreign !! "get_version"
     = Some (NodeServer.GetVersionHandler pBlockChain)
  /\ NodeServer.m_methods foreign !! "get_tip"
     = Some (NodeServer.GetTipHandler pBlockChain)
  /\ NodeServer.m_methods foreign !! "push_transaction"
     = Some (NodeServer.PushTransactionHandler pBlockChain pP2PServer)
  /\ NodeServer.m_uri (NodeServer.m_pOwnerServer node) = "/v2/owner"
  /\ NodeServer.m_methods (NodeServer.m_pOwnerServer node) = ∅.
Proof.
  intros node foreign.
  assert (Hdom : NodeServer.method_names foreign
     = {[ "get_header"; "get_block"; "get_version"; "get_tip"; "push_transaction" ]}).
  { unfold NodeServer.method_names, foreign, node, NodeServer.Create,
      NodeServer.AddMethod, NodeServer.RPCServer_Create; simpl.
    rewrite !dom_insert_L, dom_empty_L. set_solver. }
  split; [reflexivity | split; [exact Hdom | split]].
  - intros name. rewrite <- elem_of_dom.
    fold (NodeServer.method_names foreign). rewrite Hdom.
    rewrite !elem_of_union, !elem_of_singleton. simpl. intuition congruence.
  - unfold foreign, node, NodeServer.Create, NodeServer.AddMethod,
      NodeServer.RPCServer_Create; simpl.
    repeat split; simplify_map_eq; reflexivity.
Qed.

End ForeignMethods.

(** ** Restoring a wallet *)
Section RestoreFacts.
Context {IWalletDB SessionManager SessionToken EncryptedSeed : Type}.
Context (Mnemonic_ToEntropy :
           WalletManager.SecureString -> option WalletManager.SecureString
           -> option (list Byte.byte)).
Context (EncryptWalletSeed :
           WalletManager.SecretKey -> WalletManager.SecureString -> EncryptedSeed).
Context (CreateWallet : string -> EncryptedSeed -> IWalletDB -> bool * IWalletDB).
Context (SessionManager_Login :
           string -> WalletManager.SecretKey -> SessionManager
           -> SessionToken * SessionManager).

Local Abbreviation Restore :=
  (WalletManager.Restore Mnemonic_ToEntropy EncryptWalletSeed CreateWallet
     SessionManager_Login).
Local Abbreviation restorable :=
  (WalletManager.restorable Mnemonic_ToEntropy EncryptWalletSeed CreateWallet).

(** C9. Restore returns a session token exactly when the mnemonic phrase
    decodes, with the given password, to an entropy of exactly 32 bytes and
    the wallet database creates the wallet for the user name; the token is
    then the one the session manager's Login returns for the seed made of
    that entropy. In every other case (the phrase does not decode, the
    entropy is not 32 bytes long, or the wallet is not created) Restore
    returns no token and the session manager is left as it was: no login
    session is created. When decoding or the length test fails, the wallet
    database is not touched either. *)
Theorem Restore_token_iff_restorable
    (username : string) (password walletWords : WalletManager.SecureString)
    (this : WalletManager.WalletManager) :
  (is_Some (fst (Restore username password walletWords this))
   <-> restorable username password walletWords this)
  /\ (forall token,
        fst (Restore username password walletWords this) = Some token ->
        exists entropy,
          Mnemonic_ToEntropy walletWords (Some password) = Some entropy
          /\ length entropy = 32%nat
          /\ fst (CreateWallet username
                    (EncryptWalletSeed (WalletManager.mkSecretKey entropy) password)
                    (WalletManager.m_pWalletDB this)) = true
          /\ SessionManager_Login username (WalletManager.mkSecretKey entropy)
               (WalletManager.m_sessionManager this)
             = (token,
                WalletManager.m_sessionManager
                  (snd (Restore username password walletWords this))))
  /\ (~ restorable username password walletWords this ->
      fst (Restore username password walletWords this) = None
      /\ WalletManager.m_sessionManager (snd (Restore username password walletWords this))
         = WalletManager.m_sessionManager this)
  /\ ((forall entropy,
         Mnemonic_ToEntropy walletWords (Some password) = Some entropy ->
         length entropy <> 32%nat) ->
      Restore username password walletWords this = (None, this)).
Proof.
  unfold WalletManager.Restore, WalletManager.restorable.
  destruct (Mnemonic_ToEntropy walletWords (Some password)) as [entropy|] eqn:Hentropy.
  2:{ split; [|split; [|split]].
      - split; [intros [token Htoken]; discriminate Htoken
               | intros (entropy & Hsome & _); discriminate Hsome].
      - intros token Htoken. discriminate Htoken.
      - intros _. split; reflexivity.
      - intros _. reflexivity. }
  destruct (Nat.eqb_spec (length entropy) 32) as [Hlen | Hlen].
  2:{ split; [|split; [|split]].
      - split; [intros [token Htoken]; discriminate Htoken |].
        intros (entropy' & [= <-] & Hlen' & _). contradiction.
      - intros token Htoken. discriminate Htoken.
      - intros _. split; reflexivity.
      - intros _. reflexivity. }
  destruct (CreateWallet username
              (EncryptWalletSeed (WalletManager.mkSecretKey entropy) password)
              (WalletManager.m_pWalletDB this)) as [created walletDB] eqn:Hcreate.
  destruct created.
  - destruct (SessionManager_Login username (WalletManager.mkSecretKey entropy)
                (WalletManager.m_sessionManager this)) as [token sessions] eqn:Hlogin.
    simpl. split; [|split; [|split]].
    + split; [|intros _; eexists; reflexivity].
      intros _. exists entropy. rewrite Hcreate. auto.
    + intros token' [= <-]. exists entropy. rewrite Hcreate, Hlogin. auto.
    + intros Hnot. exfalso. apply Hnot. exists entropy. rewrite Hcreate. auto.
    + intros Hall. exfalso. exact (Hall entropy eq_refl Hlen).
  - simpl. split; [|split; [|split]].
    + split; [intros [token Htoken]; discriminate Htoken |].
      intros (entropy' & [= <-] & _ & Hcreated).
      rewrite Hcreate in Hcreated. discriminate Hcreated.
    + intros token Htoken. discriminate Htoken.
    + intros _. split; reflexivity.
    + intros Hall. exfalso. exact (Hall entropy eq_refl Hlen).
Qed.

End RestoreFacts.

(** ** The status display and the shutdown of the main loop *)
Section MainLoop.
Import Server.

Lemma header_percentage_value (syncStatus : SyncStatus) :
  header_percentage syncStatus
  = Some (if GetNetworkHeight syncStatus >? 0
          then U64.mul (GetHeaderHeight syncStatus) 100 / GetNetworkHeight syncStatus
          else 0).
Proof.
  unfold header_percentage, U64.div.
  destruct (Z.gtb_spec (GetNetworkHeight syncStatus) 0) as [Hpos | Hnonpos].
  - destruct (Z.eqb_spec (GetNetworkHeight syncStatus) 0); [lia | reflexivity].
  - reflexivity.
Qed.

Lemma download_percentage_value (syncStatus : SyncStatus) :
  download_percentage syncStatus
  = Some (if GetDownloadSize syncStatus >? 0
          then U64.mul (GetDownloaded syncStatus) 100 / GetDownloadSize syncStatus
          else 0).
Proof.
  unfold download_percentage, U64.div.
  destruct (Z.gtb_spec (GetDownloadSize syncStatus) 0) as [Hpos | Hnonpos].
  - destruct (Z.eqb_spec (GetDownloadSize syncStatus) 0); [lia | reflexivity].
  - reflexivity.
Qed.

Lemma status_line_defined (syncStatus : SyncStatus) : is_Some (status_line syncStatus).
Proof.
  unfold status_line.
  rewrite header_percentage_value, download_percentage_value.
  repeat case_bool_decide; simpl; eexists; reflexivity.
Qed.

Lemma iteration_defined (env : Environment) (i : nat) : is_Some (iteration env i).
Proof.
  unfold iteration.
  destruct (status_line_defined (sync_status env i)) as [line ->].
  simpl. eexists. reflexivity.
Qed.

Lemma main_loop_defined (fuel : nat) (env : Environment) (i : nat) (flag : bool)
    (trace : list Action) :
  forall trace', main_loop fuel env i flag trace <> UndefinedBehaviour trace'.
Proof.
  revert i flag trace. induction fuel as [|fuel IH]; intros i flag trace trace'; simpl.
  - discriminate.
  - destruct (deliver (signals env i) flag); [discriminate|].
    destruct (iteration_defined env i) as [actions ->]. apply IH.
Qed.

(** C10. The status display never divides by zero. The header-sync
    percentage is the quotient of [headerHeight * 100] (the 64-bit product) by
    [networkHeight] when [networkHeight > 0], and 0 otherwise; the TxHashSet
    download percentage is the quotient of [downloaded * 100] by
    [downloadSize] when [downloadSize > 0], and 0 otherwise. Hence the status
    line and every pass of the loop are defined for every sync status the
    P2P server can report, and no run of the main loop, however long, reaches
    undefined behaviour. When the product does not overflow, it is the exact
    product. *)
Theorem status_display_never_divides_by_zero (syncStatus : SyncStatus) :
  header_percentage syncStatus
    = Some (if GetNetworkHeight syncStatus >? 0
            then U64.mul (GetHeaderHeight syncStatus) 100 / GetNetworkHeight syncStatus
            else 0)
  /\ download_percentage syncStatus
     = Some (if GetDownloadSize syncStatus >? 0
             then U64.mul (GetDownloaded syncStatus) 100 / GetDownloadSize syncStatus
             else 0)
  /\ (U64.in_range (GetHeaderHeight syncStatus * 100) ->
      U64.mul (GetHeaderHeight syncStatus) 100 = GetHeaderHeight syncStatus * 100)
  /\ (U64.in_range (GetDownloaded syncStatus * 100) ->
      U64.mul (GetDownloaded syncStatus) 100 = GetDownloaded syncStatus * 100)
  /\ is_Some (status_line syncStatus)
  /\ (forall (env : Environment) (i : nat), is_Some (iteration env i))
  /\ (forall (fuel : nat) (env : Environment) (trace : list Action),
        Run fuel env <> UndefinedBehaviour trace).
Proof.
  split; [apply header_percentage_value|].
  split; [apply download_percentage_value|].
  split; [apply U64.wrap_small|].
  split; [apply U64.wrap_small|].
  split; [apply status_line_defined|].
  split; [apply iteration_defined|].
  intros fuel env trace. apply main_loop_defined.
Qed.

(** The flag after the handler has seen the events of passes [i], ..., [i+k],
    starting from [flag]. *)
Definition flag_from (env : Environment) (i : nat) (flag : bool) (k : nat) : bool :=
  fold_left (fun f j => deliver (signals env j) f) (seq i (S k)) flag.

Lemma flag_from_zero env i flag : flag_from env i flag 0 = deliver (signals env i) flag.
Proof. reflexivity. Qed.

Lemma flag_from_succ env i flag k :
  flag_from env i flag (S k) = flag_from env (S i) (deliver (signals env i) flag) k.
Proof. reflexivity. Qed.

Lemma flag_at_from env i : flag_at env i = flag_from env 0 false i.
Proof. reflexivity. Qed.

(** The handler never clears the flag. *)
Lemma deliver_keeps_flag (events : list CtrlType) : deliver events true = true.
Proof.
  induction events as [|event events IH]; simpl.
  - reflexivity.
  - destruct event; exact IH.
Qed.


Lemma main_loop_exits (env : Environment) (n : nat) :
  forall (fuel i : nat) (flag : bool) (trace : list Action),
    flag_from env i flag n = true ->
    (forall k, (k < n)%nat -> flag_from env i flag k = false) ->
    (n < fuel)%nat ->
    main_loop fuel env i flag trace
    = Returned (trace ++ passes env i n ++ shutdown_sequence).
Proof.
  induction n as [|n IH]; intros fuel i flag trace Hset Hclear Hfuel.
  - destruct fuel as [|fuel]; [lia|].
    simpl. rewrite flag_from_zero in Hset. rewrite Hset. reflexivity.
  - destruct fuel as [|fuel]; [lia|].
    assert (Hfirst : deliver (signals env i) flag = false).
    { rewrite <- flag_from_zero. apply Hclear. lia. }
    cbn [main_loop]. rewrite Hfirst.
    destruct (iteration_defined env i) as [actions Hactions].
    rewrite Hactions.
    rewrite (IH fuel (S i) false (trace ++ actions)).
    + cbn [passes]. rewrite Hactions. simpl default.
      rewrite <- !app_assoc. reflexivity.
    + rewrite flag_from_succ, Hfirst in Hset. exact Hset.
    + intros k Hk. specialize (Hclear (S k)).
      rewrite flag_from_succ, Hfirst in Hclear. apply Hclear. lia.
    + lia.
Qed.

End MainLoop.

Section Shutdown.
Import Server.

Lemma flag_at_succ (env : Environment) (i : nat) :
  flag_at env (S i) = deliver (signals env (S i)) (flag_at env i).
Proof.
  unfold flag_at. rewrite (seq_S (S i) 0), fold_left_app. reflexivity.
Qed.

(** Once read as set, the flag is read as set at every later check. *)
Lemma flag_at_stays_set (env : Environment) (n m : nat) :
  flag_at env n = true -> (n <= m)%nat -> flag_at env m = true.
Proof.
  intros Hset Hle. induction Hle as [|m Hle IH].
  - exact Hset.
  - rewrite flag_at_succ, IH. apply deliver_keeps_flag.
Qed.


(** The number of times the loop body ran to its end, read off the trace:
    each full pass ends with the one-second sleep. *)
Definition is_sleep (action : Action) : bool :=
  match action with SleepSeconds _ => true | _ => false end.

Definition full_passes (trace : list Action) : nat :=
  length (List.filter is_sleep trace).

Lemma full_passes_app (t1 t2 : list Action) :
  full_passes (t1 ++ t2) = (full_passes t1 + full_passes t2)%nat.
Proof. unfold full_passes. rewrite List.filter_app, length_app. reflexivity. Qed.

Lemma status_line_no_sleep (syncStatus : SyncStatus) (line : list Action) :
  status_line syncStatus = Some line -> full_passes line = 0%nat.
Proof.
  unfold status_line.
  rewrite header_percentage_value, download_percentage_value. simpl.
  repeat case_bool_decide; intros [= <-]; reflexivity.
Qed.

Lemma iteration_one_sleep (env : Environment) (i : nat) (actions : list Action) :
  iteration env i = Some actions -> full_passes actions = 1%nat.
Proof.
  unfold iteration.
  destruct (status_line (sync_status env i)) as [line|] eqn:Hline; simpl;
    [|discriminate].
  intros [= <-]. change (?a :: ?b :: ?c :: ?d :: ?l ++ ?r) with ([a; b; c; d] ++ l ++ r).
  rewrite !full_passes_app, (status_line_no_sleep _ _ Hline). reflexivity.
Qed.

Lemma passes_count (env : Environment) (n i : nat) :
  full_passes (passes env i n) = n.
Proof.
  revert i. induction n as [|n IH]; intros i; simpl.
  - reflexivity.
  - destruct (iteration_defined env i) as [actions Hactions].
    rewrite Hactions. simpl default.
    rewrite full_passes_app, (iteration_one_sleep _ _ _ Hactions), IH. reflexivity.
Qed.

(** C7. Shutdown is cooperative through the process-wide flag. Let the
    [n]-th check of the loop be the first to read the flag as set (the
    Ctrl-C handler sets it and nothing clears it). Then Run, given enough
    steps, returns; what it did is the start-up, then the [n] passes made
    before that check, then at once the shutdown sequence: after the
    announcement, the REST server, the P2P server, the transaction pool, the
    block chain server, the TxHashSet manager and the database are shut down
    in this order and the logger is flushed. The loop body ran to its end
    exactly [n] times, so no pass is made after the flag was read as set. *)
Theorem shutdown_is_cooperative (env : Environment) (n fuel : nat) :
  flag_at env n = true ->
  (forall k, (k < n)%nat -> flag_at env k = false) ->
  (n < fuel)%nat ->
  Run fuel env
    = Returned (startup ++ passes env 0 n
                ++ [Cout (LF +:+ "SHUTTING DOWN..."); RestServerShutdown; ShutdownP2PServer;
                    DestroyTransactionPool; ShutdownBlockChainServer;
                    DeleteTxHashSetManager; CloseDatabase; LoggerFlush])
  /\ full_passes (startup ++ passes env 0 n ++ shutdown_sequence) = n
  /\ (forall m, (n <= m)%nat -> flag_at env m = true).
Proof.
  intros Hset Hclear Hfuel. split; [|split].
  - unfold Run. apply main_loop_exits.
    + rewrite <- flag_at_from. exact Hset.
    + intros k Hk. rewrite <- flag_at_from. apply Hclear. exact Hk.
    + exact Hfuel.
  - rewrite !full_passes_app, passes_count.
    change (full_passes startup) with 0%nat.
    change (full_passes shutdown_sequence) with 0%nat. lia.
  - intros m Hle. apply (flag_at_stays_set env n m Hset Hle).
Qed.

(** The handler sets the flag on Ctrl-C and leaves it alone otherwise. *)
Lemma CtrlHandler_sets_flag (fdwCtrlType : CtrlType) (flag : bool) :
  SHUTDOWN_after (CtrlHandler CTRL_C_EVENT flag) = true
  /\ (fdwCtrlType <> CTRL_C_EVENT ->
      SHUTDOWN_after (CtrlHandler fdwCtrlType flag) = flag).
Proof. split; [reflexivity | destruct fdwCtrlType; [contradiction | reflexivity ..]]. Qed.

End Shutdown.

(** ** An ideal Schnorr scheme, and the signatures of an honest slate *)

(** Scalar multiplication, the reduction of scalars and the challenge hash,
    over the commitment group. [reduce] is the reduction of a scalar to its
    32-byte representative; it does not change the point [s·G]. *)
Class SchnorrGroup `{PedersenGroup} : Type := {
  smul : Z -> Point -> Point;
  reduce : Z -> Z;
  challenge : Point -> Point -> Hash -> Z;
  mulG_add : forall a b, mulG (a + b) = padd (mulG a) (mulG b);
  mulG_mul : forall e x, mulG (e * x) = smul e (mulG x);
  mulG_reduce : forall a, mulG (reduce a) = mulG a;
  smul_add : forall e P Q, smul e (padd P Q) = padd (smul e P) (smul e Q)
}.

Section IdealSchnorr.
Context `{SchnorrGroup}.

(** Modelled from the spec: the aggregate-signature entry points
    [schnorr_sign(sk, nonce, R_sum, P_sum, m) → s],
    [schnorr_aggregate([s], R_sum) → σ] and [schnorr_verify(σ, P_sum, m) → bool]
    (AggSig.cpp is not among the embedded sources), as textbook Schnorr
    signatures: with [e] the challenge of [(R_sum, P_sum, m)], a partial
    signature is the signer's public nonce with [s = k + e·x], the aggregate
    is [R_sum] with the sum of the [s], and [(R, s)] verifies under [P] when
    [s·G = R + e·P]. *)
Definition IdealSchnorr : SchnorrAPI := {|
  SecretKey := Z;
  PublicKey := Point;
  CompactSignature := Point * Z;
  Signature := Point * Z;
  Crypto_AddPublicKeys keys := Return (psum keys);
  Crypto_CalculatePartialSignature secretKey secretNonce sumPubKeys sumPubNonces message :=
    Some (mulG secretNonce,
          reduce (secretNonce + challenge sumPubNonces sumPubKeys message * secretKey));
  Crypto_VerifyPartialSignature partial publicKey sumPubKeys sumPubNonces message :=
    bool_decide (mulG partial.2
                 = padd partial.1 (smul (challenge sumPubNonces sumPubKeys message) publicKey));
  Crypto_AggregateSignatures signatures sumPubNonces :=
    Some (sumPubNonces, reduce (foldr Z.add 0 (map snd signatures)));
  Crypto_VerifyAggregateSignature signature sumPubKeys message :=
    bool_decide (mulG signature.2
                 = padd signature.1 (smul (challenge signature.1 sumPubKeys message) sumPubKeys))
|}.

(** The participants of a slate, each with a secret key and a secret nonce. *)
Definition public_entry (participant : Z * Z)
    (partial : option (Point * Z)) : @SignatureUtil.SlateSignature IdealSchnorr :=
  SignatureUtil.mkSlateSignature (H := IdealSchnorr)
    (mulG participant.1) (mulG participant.2) partial.

(** The slate before anybody signed. *)
Definition unsigned_slate (participants : list (Z * Z))
    : list (@SignatureUtil.SlateSignature IdealSchnorr) :=
  map (fun participant => public_entry participant None) participants.

(** Each participant signs with GeneratePartialSignature over the entries of
    the slate and attaches the result to its entry. *)
Definition sign_entry (participants : list (Z * Z)) (message : Hash)
    (participant : Z * Z) : option (Point * Z) :=
  match SignatureUtil.GeneratePartialSignature (H := IdealSchnorr)
          participant.1 participant.2 (unsigned_slate participants) message with
  | Return partial => partial
  | Throw _ => None
  end.

Definition signed_slate (participants : list (Z * Z)) (message : Hash)
    : list (@SignatureUtil.SlateSignature IdealSchnorr) :=
  map (fun participant =>
         public_entry participant (sign_entry participants message participant))
      participants.

Lemma double_is_zero (a : Point) : a = padd a a -> a = pzero.
Proof.
  intros Hdouble.
  assert (Hsub : psub (padd a a) a = a) by apply padd_sub_cancel.
  rewrite <- Hdouble in Hsub. unfold psub in Hsub. rewrite padd_opp_r in Hsub.
  symmetry. exact Hsub.
Qed.

Lemma mulG_zero : mulG 0 = pzero.
Proof. apply double_is_zero. rewrite <- mulG_add. reflexivity. Qed.

Lemma smul_zero (e : Z) : smul e pzero = pzero.
Proof. apply double_is_zero. rewrite <- smul_add, padd_zero_l. reflexivity. Qed.

Lemma mulG_sum (scalars : list Z) :
  mulG (foldr Z.add 0 scalars) = psum (map mulG scalars).
Proof.
  induction scalars as [|a scalars IH]; simpl.
  - apply mulG_zero.
  - rewrite mulG_add, IH. reflexivity.
Qed.

Lemma smul_psum (e : Z) (points : list Point) :
  smul e (psum points) = psum (map (smul e) points).
Proof.
  induction points as [|P points IH]; simpl.
  - apply smul_zero.
  - rewrite smul_add, IH. reflexivity.
Qed.

Lemma psum_padd {A : Type} (f g : A -> Point) (l : list A) :
  psum (map (fun a => padd (f a) (g a)) l) = padd (psum (map f l)) (psum (map g l)).
Proof.
  induction l as [|a l IH]; simpl.
  - symmetry. apply padd_zero_l.
  - rewrite IH, <- !padd_assoc. f_equal.
    rewrite !padd_assoc, (padd_comm (g a)). reflexivity.
Qed.

(** The public sums of a slate do not depend on who has signed. *)
Lemma slate_excesses (participants : list (Z * Z))
    (partial : Z * Z -> option (Point * Z)) :
  map SignatureUtil.excess
    (map (fun participant => public_entry participant (partial participant)) participants)
  = map (fun participant => mulG participant.1) participants.
Proof. rewrite map_map. reflexivity. Qed.

Lemma slate_nonces (participants : list (Z * Z))
    (partial : Z * Z -> option (Point * Z)) :
  map SignatureUtil.nonce
    (map (fun participant => public_entry participant (partial participant)) participants)
  = map (fun participant => mulG participant.2) participants.
Proof. rewrite map_map. reflexivity. Qed.

Lemma slate_partials (participants : list (Z * Z)) (partial : Z * Z -> Point * Z) :
  omap SignatureUtil.partialOpt
    (map (fun participant => public_entry participant (Some (partial participant)))
       participants)
  = map partial participants.
Proof.
  induction participants as [|participant participants IH]; simpl.
  - reflexivity.
  - f_equal. exact IH.
Qed.

(** The sum of the public excesses, the sum of the public nonces and the
    challenge of a slate. *)
Definition excess_sum (participants : list (Z * Z)) : Point :=
  psum (map (fun participant => mulG participant.1) participants).
Definition nonce_sum (participants : list (Z * Z)) : Point :=
  psum (map (fun participant => mulG participant.2) participants).
Definition slate_challenge (participants : list (Z * Z)) (message : Hash) : Z :=
  challenge (nonce_sum participants) (excess_sum participants) message.

Lemma sign_entry_value (participants : list (Z * Z)) (message : Hash)
    (participant : Z * Z) :
  sign_entry participants message participant
  = Some (mulG participant.2,
          reduce (participant.2 + slate_challenge participants message * participant.1)).
Proof.
  unfold sign_entry, SignatureUtil.GeneratePartialSignature.
  rewrite push_excesses_map, push_nonces_map.
  unfold unsigned_slate. rewrite slate_excesses, slate_nonces. reflexivity.
Qed.

Lemma partial_signature_equation (e x k : Z) :
  mulG (reduce (k + e * x)) = padd (mulG k) (smul e (mulG x)).
Proof. rewrite mulG_reduce, mulG_add, mulG_mul. reflexivity. Qed.

Lemma signed_slate_entries (participants : list (Z * Z)) (message : Hash) :
  signed_slate participants message
  = map (fun participant =>
           public_entry participant
             (Some (mulG participant.2,
                    reduce (participant.2
                            + slate_challenge participants message * participant.1))))
        participants.
Proof.
  unfold signed_slate. apply map_ext. intros participant.
  rewrite sign_entry_value. reflexivity.
Qed.

Lemma honest_partials_verify (sumPubKeys sumPubNonces : Point) (message : Hash)
    (participants : list (Z * Z)) :
  SignatureUtil.verify_partials_loop (H := IdealSchnorr) sumPubKeys sumPubNonces message
    (map (fun participant =>
            public_entry participant
              (Some (mulG participant.2,
                     reduce (participant.2
                             + challenge sumPubNonces sumPubKeys message * participant.1))))
         participants)
  = true.
Proof.
  induction participants as [|[x k] participants IH]; simpl.
  - reflexivity.
  - rewrite bool_decide_eq_true_2 by apply partial_signature_equation.
    simpl. exact IH.
Qed.

Lemma aggregate_equation (participants : list (Z * Z)) (e : Z) :
  mulG (reduce (foldr Z.add 0
                  (map (fun participant : Z * Z =>
                          reduce (participant.2 + e * participant.1)) participants)))
  = padd (nonce_sum participants) (smul e (excess_sum participants)).
Proof.
  rewrite mulG_reduce, mulG_sum, map_map.
  rewrite (map_ext _ (fun participant : Z * Z =>
                        padd (mulG participant.2) (smul e (mulG participant.1)))).
  2:{ intros participant. apply partial_signature_equation. }
  rewrite (psum_padd (fun participant : Z * Z => mulG participant.2)
                     (fun participant : Z * Z => smul e (mulG participant.1))).
  unfold nonce_sum, excess_sum. f_equal.
  rewrite smul_psum, map_map. reflexivity.
Qed.

(** X22. The slate protocol over the ideal scheme. When every participant signs
    with GeneratePartialSignature over the slate's public excesses and
    nonces, every partial signature passes VerifyPartialSignatures,
    AggregateSignatures produces a signature, and that signature passes
    VerifyAggregateSignature: it verifies over the message under the sum of
    the participants' public excesses. *)
Theorem honest_slate_signature_verifies (participants : list (Z * Z)) (message : Hash) :
  let slate := signed_slate participants message in
  SignatureUtil.VerifyPartialSignatures (H := IdealSchnorr) slate message = Return true
  /\ exists aggregateSignature : Point * Z,
       SignatureUtil.AggregateSignatures (H := IdealSchnorr) slate
         = Return (Some aggregateSignature)
       /\ SignatureUtil.VerifyAggregateSignature (H := IdealSchnorr)
            aggregateSignature slate message = Return true
       /\ Crypto_VerifyAggregateSignature (SchnorrAPI := IdealSchnorr)
            aggregateSignature (excess_sum participants) message = true.
Proof.
  intros slate. unfold slate. rewrite signed_slate_entries.
  set (e := slate_challenge participants message).
  split.
  - unfold SignatureUtil.VerifyPartialSignatures.
    rewrite push_excesses_map, push_nonces_map, slate_excesses, slate_nonces.
    simpl. f_equal. apply honest_partials_verify.
  - exists (nonce_sum participants,
            reduce (foldr Z.add 0
                      (map (fun participant : Z * Z =>
                              reduce (participant.2 + e * participant.1)) participants))).
    assert (Hverify :
      Crypto_VerifyAggregateSignature (SchnorrAPI := IdealSchnorr)
        (nonce_sum participants,
         reduce (foldr Z.add 0
                   (map (fun participant : Z * Z =>
                           reduce (participant.2 + e * participant.1)) participants)))
        (excess_sum participants) message = true).
    { simpl. apply bool_decide_eq_true_2. apply aggregate_equation. }
    split; [|split; [|exact Hverify]].
    + unfold SignatureUtil.AggregateSignatures.
      rewrite push_nonces_map, push_partials_omap, slate_nonces. simpl.
      rewrite slate_partials, map_map. reflexivity.
    + unfold SignatureUtil.VerifyAggregateSignature.
      rewrite push_excesses_map, slate_excesses.
      simpl. f_equal. exact Hverify.
Qed.

End IdealSchnorr.

(** ** Concrete runs *)
Module Scenarios.
Import PairGroup Blocks.

(** A body validator that rejects with a low-level error. *)
Definition failing_body_validator : @TransactionBody crypto -> bool -> result unit :=
  fun _ _ => Throw (CRYPTO_EXCEPTION "Invalid range proof").

(** A body validator that accepts. *)
Definition accepting_body_validator : @TransactionBody crypto -> bool -> result unit :=
  fun _ _ => Return tt.

(** A block at height 1 holding the coinbase output and its kernel. *)
Definition coinbase_only_block : @FullBlock crypto :=
  mkBlock (mkHeader 1 0 []) (mkBody [] [coinbase_output] [coinbase_kernel 0]) false.

Definition fresh_machine : Machine := mkMachine coinbase_only_block [].

Definition validated_machine : Machine :=
  mkMachine (MarkAsValidated coinbase_only_block)
    [Entered BodyCheck; Entered KernelLockHeightsCheck; Entered CoinbaseCheck].

(** A crypto error from the body validator reaches the caller as BadData. *)
Lemma body_errors_lifted_witness :
  failing_body_validator (GetTransactionBody unbalanced_block) false
    = Throw (CRYPTO_EXCEPTION "Invalid range proof")
  /\ fst (BlockValidator.VerifyBody failing_body_validator unbalanced_block
            (mkMachine unbalanced_block []))
     = Throw (BAD_DATA_EXCEPTION "Failed to validate transaction body")
  /\ thrown_class (fst (BlockValidator.VerifyBody failing_body_validator unbalanced_block
                          (mkMachine unbalanced_block [])))
     = Some BadDataError
  /\ (WasValidated unbalanced_block = false ->
      fst (BlockValidator.call_VerifySelfConsistent failing_body_validator unbalanced_block)
        = Throw (BAD_DATA_EXCEPTION "Failed to validate transaction body")
      /\ the_block (snd (BlockValidator.call_VerifySelfConsistent failing_body_validator
                           unbalanced_block))
         = unbalanced_block).
Proof.
  split; [reflexivity|].
  apply (body_errors_lifted_to_bad_data failing_body_validator unbalanced_block
           (mkMachine unbalanced_block []) (CRYPTO_EXCEPTION "Invalid range proof")).
  reflexivity.
Defined.

(** The first call on [coinbase_only_block] validates it; the block ends up
    marked, and a later call only logs. *)
Lemma VerifySelfConsistent_idempotent_witness :
  BlockValidator.VerifySelfConsistent accepting_body_validator fresh_machine
    = (Return tt, validated_machine)
  /\ WasValidated (the_block validated_machine) = true
  /\ BlockValidator.VerifySelfConsistent failing_body_validator
       (after_calls failing_body_validator 3 validated_machine)
     = (Return tt,
        logged (after_calls failing_body_validator 3 validated_machine)
          [already_validated_line (the_block validated_machine)]).
Proof.
  assert (Hcall : BlockValidator.VerifySelfConsistent accepting_body_validator fresh_machine
                  = (Return tt, validated_machine)) by reflexivity.
  split; [exact Hcall|].
  destruct (VerifySelfConsistent_idempotent accepting_body_validator fresh_machine
              validated_machine (Return tt) Hcall) as (Hreturned & _ & _).
  destruct (Hreturned eq_refl) as (Hflag & Hlater).
  split; [exact Hflag|].
  exact (proj1 (Hlater failing_body_validator 3%nat)).
Defined.

(** The ideal Schnorr scheme over the pair group: scalars are not reduced,
    and the challenge is some function of the two sums and the message. *)
Definition pair_smul (e : Z) (P : Z * Z) : Z * Z := (e * P.1, e * P.2).

Definition pair_challenge (R P : Z * Z) (message : Hash) : Z :=
  R.2 + 3 * P.2 + Z.of_nat (length message).

Lemma pair_mulG_mul (e x : Z) : (0, e * x) = pair_smul e (0, x).
Proof. unfold pair_smul; simpl. f_equal. lia. Qed.

Lemma pair_smul_add (e : Z) (P Q : Z * Z) :
  pair_smul e (PairGroup.add P Q) = PairGroup.add (pair_smul e P) (pair_smul e Q).
Proof. unfold pair_smul, PairGroup.add; simpl. f_equal; lia. Qed.

#[local] Instance pair_schnorr : SchnorrGroup := {|
  smul := pair_smul;
  reduce := fun s => s;
  challenge := pair_challenge;
  mulG_add := fun a b => eq_refl;
  mulG_mul := pair_mulG_mul;
  mulG_reduce := fun a => eq_refl;
  smul_add := pair_smul_add
|}.

(** Two participants, with secret keys 11 and 13 and secret nonces 5 and 8,
    sign the empty message: the aggregate verifies under the sum of their
    excesses. *)
Example two_party_slate_verifies :
  SignatureUtil.AggregateSignatures (H := IdealSchnorr)
    (signed_slate [(11, 5); (13, 8)] [])
    = Return (Some ((0, 13), 2053))
  /\ SignatureUtil.VerifyAggregateSignature (H := IdealSchnorr) ((0, 13), 2053)
       (signed_slate [(11, 5); (13, 8)] []) [] = Return true
  /\ SignatureUtil.VerifyAggregateSignature (H := IdealSchnorr) ((0, 13), 2054)
       (signed_slate [(11, 5); (13, 8)] []) [] = Return false.
Proof. repeat split; reflexivity. Qed.

(** A block at height 1 whose kernel is locked until height 2. *)
Definition early_block : @FullBlock crypto :=
  mkBlock (mkHeader 1 0 [])
          (mkBody [] [coinbase_output] [mkKernel COINBASE_KERNEL 0 2 (0, 7) []])
          false.

Example early_block_rejected :
  Legacy.VerifyKernelLockHeights early_block = false
  /\ Legacy.IsBlockValid permissive_pool early_block 0 true = false
  /\ fst (BlockValidator.call_VerifySelfConsistent accepting_body_validator early_block)
     = Throw (BAD_DATA_EXCEPTION "Failed to validate kernel lock heights")
  /\ Legacy.VerifyKernelLockHeights coinbase_only_block = true
  /\ fst (BlockValidator.call_VerifySelfConsistent accepting_body_validator
            coinbase_only_block) = Return tt.
Proof. repeat split; reflexivity. Qed.

(** A coinbase check that fails: the block claims the reward with no
    coinbase kernel to account for the blinding factor. *)
Example unaccounted_coinbase_rejected :
  fst (BlockValidator.call_VerifySelfConsistent accepting_body_validator
         (mkBlock (mkHeader 1 0 []) (mkBody [] [coinbase_output] []) false))
  = Throw (BAD_DATA_EXCEPTION "Failed to validate coinbase").
Proof. reflexivity. Qed.

(** Toy collaborators for the wallet manager: a decoder that knows two
    phrases, a database that is the list of user names, and a session manager
    that numbers its sessions. *)
Definition toy_entropy (walletWords : string) (password : option string)
    : option (list Byte.byte) :=
  if String.eqb walletWords "twenty-four words" then Some (replicate 32 Byte.x2a)
  else if String.eqb walletWords "twelve words" then Some (replicate 16 Byte.x2a)
  else None.

Definition toy_encrypt (seed : WalletManager.SecretKey) (password : string)
    : list Byte.byte * string :=
  (WalletManager.key_bytes seed, password).

Definition toy_create (username : string) (seed : list Byte.byte * string)
    (users : list string) : bool * list string :=
  if bool_decide (username ∈ users) then (false, users) else (true, username :: users).

Definition toy_login (username : string) (seed : WalletManager.SecretKey)
    (sessions : list string) : nat * list string :=
  (length sessions, sessions ++ [username]).

Definition toy_restore :=
  WalletManager.Restore toy_entropy toy_encrypt toy_create toy_login.

Definition toy_wallet : WalletManager.WalletManager :=
  WalletManager.mkWalletManager ["bob"] ["bob"].

Example restore_runs :
  toy_restore "alice" "pw" "twenty-four words" toy_wallet
    = (Some 1%nat, WalletManager.mkWalletManager ["alice"; "bob"] ["bob"; "alice"])
  /\ toy_restore "alice" "pw" "twelve words" toy_wallet = (None, toy_wallet)
  /\ toy_restore "alice" "pw" "gibberish" toy_wallet = (None, toy_wallet)
  /\ toy_restore "bob" "pw" "twenty-four words" toy_wallet = (None, toy_wallet).
Proof. repeat split; reflexivity. Qed.

(** A status with nothing known of the network yet. *)
Definition quiet_status : Server.SyncStatus :=
  Server.mkSyncStatus Server.SYNCING_HEADERS 8 0 0 0 0 0 0 0 0.

(** The percentages of the status line, and what an unguarded division
    would have been. *)
Example percentages_run :
  Server.header_percentage (Server.mkSyncStatus Server.SYNCING_HEADERS 8 200 0 50 0 0 0 0 0)
    = Some 25
  /\ Server.header_percentage quiet_status = Some 0
  /\ Server.download_percentage
       (Server.mkSyncStatus Server.SYNCING_TXHASHSET 8 200 0 50 0 0 0 1 3)
     = Some 33
  /\ U64.div (U64.mul 50 100) 0 = None.
Proof. repeat split; reflexivity. Qed.

(** An environment in which Ctrl-C arrives before the third check. *)
Definition ctrl_c_before_third_check : Server.Environment :=
  Server.mkEnvironment
    (fun i => if (i =? 2)%nat then [Server.CTRL_BREAK_EVENT; Server.CTRL_C_EVENT] else [])
    (fun _ => quiet_status)
    (fun i => Z.of_nat i).

Lemma shutdown_is_cooperative_witness :
  Server.flag_at ctrl_c_before_third_check 2 = true
  /\ Server.Run 5 ctrl_c_before_third_check
     = Server.Returned
         (Server.startup ++ Server.passes ctrl_c_before_third_check 0 2
          ++ [Server.Cout (Server.LF +:+ "SHUTTING DOWN..."); Server.RestServerShutdown;
              Server.ShutdownP2PServer; Server.DestroyTransactionPool;
              Server.ShutdownBlockChainServer; Server.DeleteTxHashSetManager;
              Server.CloseDatabase; Server.LoggerFlush])
  /\ full_passes (Server.startup ++ Server.passes ctrl_c_before_third_check 0 2
                  ++ Server.shutdown_sequence) = 2%nat
  /\ (forall m, (2 <= m)%nat -> Server.flag_at ctrl_c_before_third_check m = true).
Proof.
  split; [reflexivity|].
  apply (shutdown_is_cooperative ctrl_c_before_third_check 2 5).
  - reflexivity.
  - intros k Hk. destruct k as [|[|k]]; [reflexivity | reflexivity | lia].
  - lia.
Defined.

End Scenarios.

(** ** More of the validators: verdicts, failures and what a call leaves alone *)
Section ValidatorVerdicts.
Context `{CryptoAPI} `{ConsensusParams}.

(** X1. VerifySelfConsistent returns without throwing exactly when the block
    is already marked validated, or the body validator returns, no kernel is
    locked above the block's height and the coinbase sums are equal. A block
    that carries the mark is accepted on the mark alone. *)
Theorem VerifySelfConsistent_returns_iff
    (Validate : TransactionBody -> bool -> result unit) (block : FullBlock) :
  fst (BlockValidator.call_VerifySelfConsistent Validate block) = Return tt
  <-> WasValidated block = true
      \/ (body_passes Validate block = true
          /\ lock_heights_pass block = true
          /\ coinbase_passes block = true).
Proof.
  unfold BlockValidator.call_VerifySelfConsistent.
  destruct (WasValidated block) eqn:Hflag.
  - rewrite VerifySelfConsistent_validated by exact Hflag. simpl. tauto.
  - rewrite VerifySelfConsistent_unvalidated by exact Hflag. cbv zeta. simpl the_block.
    unfold body_passes, lock_heights_pass, coinbase_passes.
    destruct (Validate (GetTransactionBody block) false) as [[]|e]; simpl.
    2:{ split; [discriminate | intros [Hf | (Hb & _)]; discriminate]. }
    destruct (any_of _ _); simpl.
    1:{ split; [discriminate | intros [Hf | (_ & Hl & _)]; discriminate]. }
    destruct (coinbase_sums block) as [[out ks]|]; simpl.
    2:{ split; [discriminate | intros [Hf | (_ & _ & Hc)]; discriminate]. }
    destruct (bool_decide (ks = out)); simpl.
    + split; [auto | reflexivity].
    + split; [discriminate | intros [Hf | (_ & _ & Hc)]; discriminate].
Qed.

(** X2. On a block not yet marked validated, VerifySelfConsistent reports the
    first check that fails, in the order body, lock heights, coinbase: a body
    failure is reported even if the other checks would fail too, and so on.
    A failure of the Crypto library inside the coinbase check is not lifted:
    it reaches the caller as the library's own exception. *)
Theorem VerifySelfConsistent_reports_first_failure
    (Validate : TransactionBody -> bool -> result unit) (block : FullBlock) :
  WasValidated block = false ->
  (body_passes Validate block = false ->
   fst (BlockValidator.call_VerifySelfConsistent Validate block)
   = Throw (BAD_DATA_EXCEPTION "Failed to validate transaction body"))
  /\ (body_passes Validate block = true ->
      lock_heights_pass block = false ->
      fst (BlockValidator.call_VerifySelfConsistent Validate block)
      = Throw (BAD_DATA_EXCEPTION "Failed to validate kernel lock heights"))
  /\ (body_passes Validate block = true ->
      lock_heights_pass block = true ->
      coinbase_sums block = None ->
      thrown_class (fst (BlockValidator.call_VerifySelfConsistent Validate block))
      = Some CryptoError)
  /\ (body_passes Validate block = true ->
      lock_heights_pass block = true ->
      (exists sums, coinbase_sums block = Some sums) ->
      coinbase_passes block = false ->
      fst (BlockValidator.call_VerifySelfConsistent Validate block)
      = Throw (BAD_DATA_EXCEPTION "Failed to validate coinbase")).
Proof.
  intros Hflag. unfold BlockValidator.call_VerifySelfConsistent.
  rewrite VerifySelfConsistent_unvalidated by exact Hflag. cbv zeta. simpl the_block.
  unfold body_passes, lock_heights_pass, coinbase_passes.
  destruct (Validate (GetTransactionBody block) false) as [[]|e]; simpl.
  2:{ split; [reflexivity | repeat split; discriminate]. }
  split; [discriminate|].
  destruct (any_of _ _); simpl.
  1:{ split; [reflexivity | split; intros _ Hl; discriminate Hl]. }
  split; [intros _ Hl; discriminate Hl|].
  destruct (coinbase_sums block) as [[out ks]|]; simpl.
  - split; [intros _ _ Hnone; discriminate Hnone|].
    intros _ _ _ Hc. rewrite Hc. reflexivity.
  - split; [reflexivity|]. intros _ _ (sums & Hsome). discriminate Hsome.
Qed.

(** X3. Whatever its outcome, a call of VerifySelfConsistent leaves the
    header and the body of the block as they were, never clears the
    validated mark, and only adds to the journal. *)
Theorem VerifySelfConsistent_preserves_block
    (Validate : TransactionBody -> bool -> result unit) (s : Machine) :
  let s' := snd (BlockValidator.VerifySelfConsistent Validate s) in
  m_pBlockHeader (the_block s') = m_pBlockHeader (the_block s)
  /\ m_transactionBody (the_block s') = m_transactionBody (the_block s)
  /\ (WasValidated (the_block s) = true -> WasValidated (the_block s') = true)
  /\ exists added, journal s' = journal s ++ added.
Proof.
  cbv zeta. destruct (WasValidated (the_block s)) eqn:Hflag.
  - rewrite VerifySelfConsistent_validated by exact Hflag. simpl.
    split; [reflexivity | split; [reflexivity | split]].
    + intros _. exact Hflag.
    + eexists. reflexivity.
  - rewrite VerifySelfConsistent_unvalidated by exact Hflag. cbv zeta.
    destruct (Validate _ _) as [[]|e]; simpl.
    2:{ split; [reflexivity | split; [reflexivity | split]];
          [discriminate | eexists; reflexivity]. }
    destruct (any_of _ _); simpl.
    1:{ split; [reflexivity | split; [reflexivity | split]];
          [discriminate | eexists; reflexivity]. }
    destruct (coinbase_sums (the_block s)) as [[out ks]|]; simpl.
    2:{ split; [reflexivity | split; [reflexivity | split]];
          [discriminate | eexists; reflexivity]. }
    destruct (bool_decide (ks = out)); simpl;
      (split; [reflexivity | split; [reflexivity | split]];
         [discriminate | eexists; reflexivity]).
Qed.

(** X4. The coinbase check looks only at the coinbase-marked outputs and at
    the kernels: two blocks with the same kernels and the same commitments
    of coinbase-marked outputs get the same outcome from both validators,
    whatever their inputs, their other outputs and their headers. *)
Theorem coinbase_check_ignores_plain_outputs (block block' : FullBlock)
    (s s' : Machine) :
  coinbase_output_commitments block' = coinbase_output_commitments block ->
  GetKernels block' = GetKernels block ->
  fst (BlockValidator.VerifyCoinbase block' s') = fst (BlockValidator.VerifyCoinbase block s)
  /\ Legacy.VerifyCoinbase block' = Legacy.VerifyCoinbase block.
Proof.
  intros Houtputs Hkernels.
  assert (Hsums : coinbase_sums block' = coinbase_sums block).
  { unfold coinbase_sums, coinbase_reward, total_fee, coinbase_kernel_excesses.
    rewrite Houtputs, Hkernels. reflexivity. }
  split.
  - rewrite !VerifyCoinbase_run, Hsums.
    destruct (coinbase_sums block) as [[out ks]|]; [|reflexivity].
    destruct (bool_decide (ks = out)); reflexivity.
  - rewrite !Legacy_VerifyCoinbase_verdict. unfold coinbase_passes.
    rewrite Hsums. reflexivity.
Qed.

(** X5. The early IsBlockValid returns true exactly when the block is
    self-consistent, if that was asked for, and the Crypto library does not
    fail on the kernel offsets (it is consulted only when the header's total
    offset equals the previous one). IsBlockSelfConsistent is the conjunction
    of the pool's verdict on the body, the lock-height check and the coinbase
    check. Nothing else of the block decides the result. *)
Theorem IsBlockValid_iff (pool : TransactionBody -> bool -> bool)
    (block : FullBlock) (previousKernelOffset : BlindingFactor)
    (validateSelfConsistent : bool) :
  (Legacy.IsBlockValid pool block previousKernelOffset validateSelfConsistent = true
   <-> (validateSelfConsistent = true -> Legacy.IsBlockSelfConsistent pool block = true)
       /\ (m_totalKernelOffset (GetBlockHeader block) = previousKernelOffset ->
           is_Some (AddBlindingFactors [previousKernelOffset] [previousKernelOffset])))
  /\ Legacy.IsBlockSelfConsistent pool block
     = pool (GetTransactionBody block) true
       && Legacy.VerifyKernelLockHeights block
       && Legacy.VerifyCoinbase block.
Proof.
  split.
  - unfold Legacy.IsBlockValid. simpl.
    destruct (Z.eqb_spec (m_totalKernelOffset (GetBlockHeader block)) previousKernelOffset)
      as [Heq | Hne].
    + rewrite Heq.
      destruct validateSelfConsistent, (Legacy.IsBlockSelfConsistent pool block),
        (AddBlindingFactors [previousKernelOffset] [previousKernelOffset]) as [offset|];
        simpl; split;
        try (intros Hx; discriminate Hx);
        try (intros _; split; [intros _; reflexivity | intros _; eexists; reflexivity]);
        try (intros _; split; [intros Hx; discriminate Hx | intros _; eexists; reflexivity]);
        try reflexivity.
      all: intros (Hsc & Hoff);
        first [ discriminate (Hsc eq_refl)
              | destruct (Hoff eq_refl) as [offset' Hsome]; discriminate Hsome ].
    + destruct validateSelfConsistent, (Legacy.IsBlockSelfConsistent pool block);
        simpl; split;
        try (intros Hx; discriminate Hx);
        try (intros _; split; [intros _; reflexivity | intros Hx; contradiction]);
        try (intros _; split; [intros Hx; discriminate Hx | intros Hx; contradiction]);
        try reflexivity.
      intros (Hsc & _). discriminate (Hsc eq_refl).
  - unfold Legacy.IsBlockSelfConsistent.
    destruct (pool _ _), (Legacy.VerifyKernelLockHeights block),
      (Legacy.VerifyCoinbase block); reflexivity.
Qed.

End ValidatorVerdicts.

(** ** The order of a body's elements and the coinbase check *)
Section BodyOrder.
Context `{PedersenGroup} `{ConsensusParams}.

Lemma psum_Permutation (l1 l2 : list Point) :
  Permutation l1 l2 -> psum l1 = psum l2.
Proof.
  induction 1 as [|x l1 l2 _ IH|x y l|l1 l2 l3 _ IH1 _ IH2]; simpl.
  - reflexivity.
  - rewrite IH. reflexivity.
  - rewrite !padd_assoc, (padd_comm y x). reflexivity.
  - rewrite IH1. exact IH2.
Qed.

Lemma fee_sum_Permutation (l1 l2 : list Z) :
  Permutation l1 l2 -> foldr Z.add 0 l1 = foldr Z.add 0 l2.
Proof.
  induction 1 as [|x l1 l2 _ IH|x y l|l1 l2 l3 _ IH1 _ IH2]; simpl; lia.
Qed.

Lemma filter_map_Permutation {A B : Type} (pred : A -> bool) (f : A -> B)
    (l1 l2 : list A) :
  Permutation l1 l2 ->
  Permutation (map f (List.filter pred l1)) (map f (List.filter pred l2)).
Proof.
  induction 1 as [|x l1 l2 _ IH|x y l|l1 l2 l3 _ IH1 _ IH2]; simpl.
  - constructor.
  - destruct (pred x); simpl; [constructor|]; exact IH.
  - destruct (pred x), (pred y); simpl; try reflexivity. constructor.
  - etransitivity; eassumption.
Qed.

(** X6. Over the commitment group the coinbase check does not depend on the
    order of the outputs or of the kernels in the body: two blocks whose
    output lists and kernel lists are rearrangements of each other get the
    same outcome from both validators. *)
Theorem coinbase_check_order_independent (block block' : @FullBlock IdealCrypto)
    (s s' : Machine) :
  Permutation (GetOutputs block) (GetOutputs block') ->
  Permutation (GetKernels block) (GetKernels block') ->
  fst (BlockValidator.VerifyCoinbase block s) = fst (BlockValidator.VerifyCoinbase block' s')
  /\ Legacy.VerifyCoinbase block = Legacy.VerifyCoinbase block'.
Proof.
  intros Houtputs Hkernels.
  assert (Hreward : coinbase_reward block = coinbase_reward block').
  { unfold coinbase_reward, total_fee. f_equal. f_equal.
    apply fee_sum_Permutation. apply Permutation_map. exact Hkernels. }
  assert (Hout : psum (coinbase_output_commitments block)
                 = psum (coinbase_output_commitments block')).
  { apply psum_Permutation. unfold coinbase_output_commitments.
    apply filter_map_Permutation. exact Houtputs. }
  assert (Hexcess : psum (coinbase_kernel_excesses block)
                    = psum (coinbase_kernel_excesses block')).
  { apply psum_Permutation. unfold coinbase_kernel_excesses.
    apply filter_map_Permutation. exact Hkernels. }
  assert (Hsums : coinbase_sums block = coinbase_sums block').
  { rewrite !ideal_coinbase_sums, Hreward, Hout, Hexcess. reflexivity. }
  split.
  - rewrite !VerifyCoinbase_run, Hsums.
    destruct (coinbase_sums block') as [[out ks]|]; [|reflexivity].
    destruct (bool_decide (ks = out)); reflexivity.
  - rewrite !Legacy_VerifyCoinbase_verdict. unfold coinbase_passes.
    rewrite Hsums. reflexivity.
Qed.

End BodyOrder.

(** ** More of SignatureUtil *)
Section SlateSignatures.
Context `{SchnorrAPI}.

Lemma verify_partials_loop_iff (sumPubKeys sumPubNonces : PublicKey) (message : Hash)
    (sigs : list SignatureUtil.SlateSignature) :
  SignatureUtil.verify_partials_loop sumPubKeys sumPubNonces message sigs = true
  <-> forall sig partial,
        In sig sigs ->
        SignatureUtil.partialOpt sig = Some partial ->
        Crypto_VerifyPartialSignature partial (SignatureUtil.excess sig)
          sumPubKeys sumPubNonces message = true.
Proof.
  induction sigs as [|sig0 sigs IH]; simpl.
  - split; [intros _ sig partial [] | reflexivity].
  - destruct (SignatureUtil.partialOpt sig0) as [partial0|] eqn:Hpartial.
    + destruct (Crypto_VerifyPartialSignature partial0 (SignatureUtil.excess sig0)
                  sumPubKeys sumPubNonces message) eqn:Hverify; simpl.
      * rewrite IH. split.
        -- intros Hall sig partial [<- | Hin] Hsome.
           ++ rewrite Hpartial in Hsome. injection Hsome as <-. exact Hverify.
           ++ exact (Hall sig partial Hin Hsome).
        -- intros Hall sig partial Hin. apply Hall. right. exact Hin.
      * split; [discriminate|]. intros Hall.
        rewrite <- Hverify. apply (Hall sig0 partial0); [left; reflexivity | exact Hpartial].
    + rewrite IH. split.
      * intros Hall sig partial [<- | Hin] Hsome.
        -- rewrite Hpartial in Hsome. discriminate Hsome.
        -- exact (Hall sig partial Hin Hsome).
      * intros Hall sig partial Hin. apply Hall. right. exact Hin.
Qed.

(** X7. When the library can sum the public excesses and the public nonces
    of the slate, VerifyPartialSignatures returns true exactly when every
    partial signature present in the slate verifies for its participant's
    excess under the two sums and the message. Participants who have not
    signed yet are skipped, so a slate nobody has signed verifies. *)
Theorem VerifyPartialSignatures_iff (sigs : list SignatureUtil.SlateSignature)
    (message : Hash) (sumPubKeys sumPubNonces : PublicKey) :
  Crypto_AddPublicKeys (map SignatureUtil.excess sigs) = Return sumPubKeys ->
  Crypto_AddPublicKeys (map SignatureUtil.nonce sigs) = Return sumPubNonces ->
  (SignatureUtil.VerifyPartialSignatures sigs message = Return true
   <-> forall sig partial,
         In sig sigs ->
         SignatureUtil.partialOpt sig = Some partial ->
         Crypto_VerifyPartialSignature partial (SignatureUtil.excess sig)
           sumPubKeys sumPubNonces message = true)
  /\ (SignatureUtil.VerifyPartialSignatures sigs message = Return true
      \/ SignatureUtil.VerifyPartialSignatures sigs message = Return false)
  /\ ((forall sig, In sig sigs -> SignatureUtil.partialOpt sig = None) ->
      SignatureUtil.VerifyPartialSignatures sigs message = Return true).
Proof.
  intros Hkeys Hnonces.
  unfold SignatureUtil.VerifyPartialSignatures.
  rewrite push_excesses_map, push_nonces_map, Hkeys, Hnonces. simpl.
  split; [|split].
  - rewrite <- verify_partials_loop_iff.
    split; [intros [= Hloop]; exact Hloop | intros ->; reflexivity].
  - destruct (SignatureUtil.verify_partials_loop _ _ _ _); auto.
  - intros Hnone. f_equal. apply verify_partials_loop_iff.
    intros sig partial Hin Hsome. rewrite (Hnone sig Hin) in Hsome. discriminate Hsome.
Qed.

(** X8. What the signing helpers hand to the library. GeneratePartialSignature
    signs under the sum of all public excesses and the sum of all public
    nonces of the slate, summing the excesses first: if that sum fails, its
    exception is the outcome. AggregateSignatures aggregates the partial
    signatures that are present, in slate order, under the sum of the public
    nonces of all participants, signed or not; if the sum fails, nothing is
    aggregated. *)
Theorem slate_signing_inputs (secretKey secretNonce : SecretKey)
    (sigs : list SignatureUtil.SlateSignature) (message : Hash) :
  SignatureUtil.GeneratePartialSignature secretKey secretNonce sigs message
  = match Crypto_AddPublicKeys (map SignatureUtil.excess sigs) with
    | Throw e => Throw e
    | Return sumPubKeys =>
        match Crypto_AddPublicKeys (map SignatureUtil.nonce sigs) with
        | Throw e => Throw e
        | Return sumPubNonces =>
            Return (Crypto_CalculatePartialSignature secretKey secretNonce
                      sumPubKeys sumPubNonces message)
        end
    end
  /\ SignatureUtil.AggregateSignatures sigs
     = match Crypto_AddPublicKeys (map SignatureUtil.nonce sigs) with
       | Throw e => Throw e
       | Return sumPubNonces =>
           Return (Crypto_AggregateSignatures (omap SignatureUtil.partialOpt sigs)
                     sumPubNonces)
       end.
Proof.
  split.
  - unfold SignatureUtil.GeneratePartialSignature.
    rewrite push_excesses_map, push_nonces_map.
    destruct (Crypto_AddPublicKeys (map SignatureUtil.excess sigs)); simpl;
      [|reflexivity].
    destruct (Crypto_AddPublicKeys (map SignatureUtil.nonce sigs)); reflexivity.
  - unfold SignatureUtil.AggregateSignatures.
    rewrite push_nonces_map, push_partials_omap.
    destruct (Crypto_AddPublicKeys (map SignatureUtil.nonce sigs)); reflexivity.
Qed.

End SlateSignatures.

(** ** More of the main loop: console events and the percentages *)
Section ConsoleEvents.
Import Server.






Lemma guarded_quotient_bounds (part whole : Z) :
  0 <= part <= whole -> 0 < whole -> U64.in_range (part * 100) ->
  0 <= U64.mul part 100 / whole <= 100.
Proof.
  intros Hpart Hwhole Hrange.
  unfold U64.mul. rewrite (U64.wrap_small _ Hrange). split.
  - apply Z.div_pos; lia.
  - apply Z.div_le_upper_bound; lia.
Qed.

(** X11. While the header height does not exceed the network height (and
    the product by 100 fits 64 bits), the header-sync percentage shown lies
    between 0 and 100, and it is 100 when the two heights are equal; the same
    holds for the TxHashSet download percentage with the bytes downloaded and
    the download size. *)
Theorem percentages_between_0_and_100 (syncStatus : SyncStatus) :
  (0 <= GetHeaderHeight syncStatus <= GetNetworkHeight syncStatus ->
   U64.in_range (GetHeaderHeight syncStatus * 100) ->
   exists percentage,
     header_percentage syncStatus = Some percentage
     /\ 0 <= percentage <= 100
     /\ (0 < GetHeaderHeight syncStatus
         /\ GetHeaderHeight syncStatus = GetNetworkHeight syncStatus ->
         percentage = 100))
  /\ (0 <= GetDownloaded syncStatus <= GetDownloadSize syncStatus ->
      U64.in_range (GetDownloaded syncStatus * 100) ->
      exists percentage,
        download_percentage syncStatus = Some percentage
        /\ 0 <= percentage <= 100
        /\ (0 < GetDownloaded syncStatus
            /\ GetDownloaded syncStatus = GetDownloadSize syncStatus ->
            percentage = 100)).
Proof.
  split; intros Hle Hrange.
  - rewrite header_percentage_value. eexists. split; [reflexivity|].
    destruct (Z.gtb_spec (GetNetworkHeight syncStatus) 0) as [Hpos | Hzero].
    + split; [apply guarded_quotient_bounds; [exact Hle | lia | exact Hrange]|].
      intros [Hpos' Heq]. unfold U64.mul. rewrite (U64.wrap_small _ Hrange), Heq.
      rewrite Z.mul_comm. apply Z.div_mul. lia.
    + split; [lia | intros [Hpos' Heq]; lia].
  - rewrite download_percentage_value. eexists. split; [reflexivity|].
    destruct (Z.gtb_spec (GetDownloadSize syncStatus) 0) as [Hpos | Hzero].
    + split; [apply guarded_quotient_bounds; [exact Hle | lia | exact Hrange]|].
      intros [Hpos' Heq]. unfold U64.mul. rewrite (U64.wrap_small _ Hrange), Heq.
      rewrite Z.mul_comm. apply Z.div_mul. lia.
    + split; [lia | intros [Hpos' Heq]; lia].
Qed.

End ConsoleEvents.

(** ** Creating a wallet (WalletManager::InitializeNewWallet) *)
Module NewWallet.
Section Manager.
(** The collaborators of Restore, and the mnemonic encoder. The seed drawn by
    RandomNumberGenerator::GenerateRandom32 is an input of the call. *)
Context {IWalletDB SessionManager SessionToken EncryptedSeed : Type}.
Context (Mnemonic_CreateMnemonic :
           list Byte.byte -> option WalletManager.SecureString
           -> WalletManager.SecureString).
Context (EncryptWalletSeed :
           WalletManager.SecretKey -> WalletManager.SecureString -> EncryptedSeed).
Context (CreateWallet : string -> EncryptedSeed -> IWalletDB -> bool * IWalletDB).
Context (SessionManager_Login :
           string -> WalletManager.SecretKey -> SessionManager
           -> SessionToken * SessionManager).

Definition InitializeNewWallet (GenerateRandom32 : WalletManager.SecretKey)
    (username : string) (password : WalletManager.SecureString)
    (this : @WalletManager.WalletManager IWalletDB SessionManager)
    : option (WalletManager.SecureString * SessionToken)
      * @WalletManager.WalletManager IWalletDB SessionManager :=
  let walletSeed := GenerateRandom32 in
  let encryptedSeed := EncryptWalletSeed walletSeed password in
  let '(created, walletDB) :=
    CreateWallet username encryptedSeed (WalletManager.m_pWalletDB this) in
  if created then
    let walletWords :=
      Mnemonic_CreateMnemonic (WalletManager.key_bytes walletSeed) (Some password) in
    let '(token, sessions) :=
      SessionManager_Login username walletSeed (WalletManager.m_sessionManager this) in
    (Some (walletWords, token), WalletManager.mkWalletManager walletDB sessions)
  else
    (None, WalletManager.mkWalletManager walletDB (WalletManager.m_sessionManager this)).

End Manager.
End NewWallet.

Section NewWalletFacts.
Context {IWalletDB SessionManager SessionToken EncryptedSeed : Type}.
Context (Mnemonic_CreateMnemonic :
           list Byte.byte -> option WalletManager.SecureString
           -> WalletManager.SecureString).
Context (Mnemonic_ToEntropy :
           WalletManager.SecureString -> option WalletManager.SecureString
           -> option (list Byte.byte)).
Context (EncryptWalletSeed :
           WalletManager.SecretKey -> WalletManager.SecureString -> EncryptedSeed).
Context (CreateWallet : string -> EncryptedSeed -> IWalletDB -> bool * IWalletDB).
Context (SessionManager_Login :
           string -> WalletManager.SecretKey -> SessionManager
           -> SessionToken * SessionManager).

Local Abbreviation InitializeNewWallet :=
  (NewWallet.InitializeNewWallet Mnemonic_CreateMnemonic EncryptWalletSeed CreateWallet
     SessionManager_Login).
Local Abbreviation RestoreWallet :=
  (WalletManager.Restore Mnemonic_ToEntropy EncryptWalletSeed CreateWallet
     SessionManager_Login).

(** X12. InitializeNewWallet returns the mnemonic and a session token exactly
    when the wallet database creates the wallet for the user name; the words
    are then the mnemonic of the drawn seed under the password and the token
    is the one Login returns for that seed. When the database refuses (the
    name is taken, say), nothing is returned and the session manager is left
    as it was. *)
Theorem InitializeNewWallet_iff_created (seed : WalletManager.SecretKey)
    (username : string) (password : WalletManager.SecureString)
    (this : WalletManager.WalletManager) :
  (is_Some (fst (InitializeNewWallet seed username password this))
   <-> fst (CreateWallet username (EncryptWalletSeed seed password)
              (WalletManager.m_pWalletDB this)) = true)
  /\ (forall walletWords token,
        fst (InitializeNewWallet seed username password this)
          = Some (walletWords, token) ->
        walletWords
          = Mnemonic_CreateMnemonic (WalletManager.key_bytes seed) (Some password)
        /\ SessionManager_Login username seed (WalletManager.m_sessionManager this)
           = (token,
              WalletManager.m_sessionManager
                (snd (InitializeNewWallet seed username password this))))
  /\ (fst (InitializeNewWallet seed username password this) = None ->
      WalletManager.m_sessionManager
        (snd (InitializeNewWallet seed username password this))
      = WalletManager.m_sessionManager this).
Proof.
  unfold NewWallet.InitializeNewWallet.
  destruct (CreateWallet username (EncryptWalletSeed seed password)
              (WalletManager.m_pWalletDB this)) as [created walletDB].
  destruct created; simpl.
  - destruct (SessionManager_Login username seed
                (WalletManager.m_sessionManager this)) as [token sessions].
    simpl. split; [|split].
    + split; [reflexivity | intros _; eexists; reflexivity].
    + intros walletWords token' [= <- <-]. split; reflexivity.
    + discriminate.
  - split; [|split].
    + split; [intros [x Hx]; discriminate Hx | discriminate].
    + intros walletWords token Hsome. discriminate Hsome.
    + reflexivity.
Qed.

(** X13. The words handed out by InitializeNewWallet restore the same seed.
    Provided the mnemonic decoder reads back what the encoder wrote for the
    32-byte seed and the password, a Restore with these words and the
    password, under a user name the database accepts, logs in with exactly
    the seed that InitializeNewWallet drew. *)
Theorem new_wallet_words_restore_the_seed (seed : WalletManager.SecretKey)
    (username username' : string) (password walletWords : WalletManager.SecureString)
    (token : SessionToken) (this this' other : WalletManager.WalletManager) :
  length (WalletManager.key_bytes seed) = 32%nat ->
  Mnemonic_ToEntropy
    (Mnemonic_CreateMnemonic (WalletManager.key_bytes seed) (Some password))
    (Some password) = Some (WalletManager.key_bytes seed) ->
  InitializeNewWallet seed username password this = (Some (walletWords, token), this') ->
  fst (CreateWallet username' (EncryptWalletSeed seed password)
         (WalletManager.m_pWalletDB other)) = true ->
  fst (RestoreWallet username' password walletWords other)
  = Some (fst (SessionManager_Login username' seed
                 (WalletManager.m_sessionManager other))).
Proof.
  intros Hlen Hroundtrip Hinit Hcreate.
  assert (Hwords : walletWords
            = Mnemonic_CreateMnemonic (WalletManager.key_bytes seed) (Some password)).
  { unfold NewWallet.InitializeNewWallet in Hinit.
    destruct (CreateWallet username _ _) as [[|] walletDB]; [|discriminate Hinit].
    destruct (SessionManager_Login username _ _) as [token0 sessions].
    injection Hinit as <- _ _. reflexivity. }
  subst walletWords. unfold WalletManager.Restore.
  rewrite Hroundtrip, Hlen. simpl.
  destruct seed as [bytes]. simpl in *.
  destruct (CreateWallet username' _ _) as [created walletDB].
  simpl in Hcreate. subst created.
  destruct (SessionManager_Login username' _ _) as [token' sessions]. reflexivity.
Qed.

End NewWalletFacts.

(** ** The Tor control client (src/Net/Tor/TorControlClient.h) *)
Module TorControlClient.

(** The exceptions that cross the client: TorException, asio::system_error,
    and any other std::exception; each carries its [what()] text. *)
Inductive NetException : Type :=
| TorException (message : string)
| asio_system_error (message : string)
| std_exception (message : string).

Definition what_of (e : NetException) : string :=
  match e with
  | TorException message => message
  | asio_system_error message => message
  | std_exception message => message
  end.

Definition TOR_EXCEPTION (message : string) : NetException := TorException message.

Inductive Outcome (A : Type) : Type :=
| Returns (a : A)
| Throws (e : NetException).
Arguments Returns {A} a.
Arguments Throws {A} e.

(** [static const std::chrono::seconds TOR_CONTROL_TIMEOUT = std::chrono::seconds(3);] *)
Definition TOR_CONTROL_TIMEOUT : Z := 3.

Definition SocketAddress : Type := string.

(** How a call of Invoke ends: with the response; with an exception; or
    waiting for a line when the lines supplied have all been read. *)
Inductive InvokeResult : Type :=
| Response (response : list string)
| Failure (e : NetException)
| AwaitingLine (response : list string).

Section Client.
(** The base class Client and the string helpers are outside the embedded
    sources and taken as they are called: [Client::Connect(address, timeout)]
    and [Write(request, timeout)] return or throw, [Trim] and
    [StringUtil::StartsWith] are functions on strings. What the successive
    calls of [ReadLine(timeout)] give is a list of outcomes, a line or an
    exception each. *)
Context (Client_Connect : SocketAddress -> Z -> Outcome unit).
Context (Write : string -> Z -> Outcome unit).
Context (Trim : string -> string).
Context (StartsWith : string -> string -> bool).

(** The error line of the log, when there is one. *)
Definition Connect (address : SocketAddress) : Outcome bool * option (string * list string) :=
  match Client_Connect address TOR_CONTROL_TIMEOUT with
  | Returns _ => (Returns true, None)
  | Throws (asio_system_error message) =>
      (Returns false,
       Some ("Connection to {} failed with error {}.", [address; message]))
  | Throws e => (Throws e, None)
  end.

(** The reading part of Invoke: [line] is read and trimmed, and while it is
    not ["250 OK"] it must start with ["250"], is pushed onto the response,
    and the next line is read. Returns the lines left unread as well. *)
Fixpoint read_until_ok (reads : list (Outcome string)) (response : list string)
    : InvokeResult * list (Outcome string) :=
  match reads with
  | [] => (AwaitingLine response, [])
  | Throws e :: rest => (Failure e, rest)
  | Returns raw :: rest =>
      let line := Trim raw in
      if String.eqb line "250 OK" then (Response response, rest)
      else if negb (StartsWith line "250")
           then (Failure (TOR_EXCEPTION ("Failed with error: " +:+ line)), rest)
           else read_until_ok rest (response ++ [line])
  end.

Definition Invoke (request : string) (reads : list (Outcome string))
    : InvokeResult * list (Outcome string) :=
  let attempt :=
    match Write request TOR_CONTROL_TIMEOUT with
    | Throws e => (Failure e, reads)
    | Returns _ => read_until_ok reads []
    end in
  match attempt with
  | (Failure (TorException message), rest) =>
      (Failure (TorException message), rest)               (* catch (TorException&) { throw; } *)
  | (Failure e, rest) => (Failure (TOR_EXCEPTION (what_of e)), rest)
  | other => other
  end.

(** A line that Invoke accepts into the response. *)
Definition reply_line (line : string) : Prop :=
  line <> "250 OK" /\ StartsWith line "250" = true.

End Client.
End TorControlClient.

Section TorFacts.
Import TorControlClient.
Context (Client_Connect : SocketAddress -> Z -> Outcome unit).
Context (Write : string -> Z -> Outcome unit).
Context (Trim : string -> string).
Context (StartsWith : string -> string -> bool).

Lemma read_until_ok_accepts (raws : list string) (last : string)
    (rest : list (Outcome string)) (response : list string) :
  Forall (fun raw => reply_line StartsWith (Trim raw)) raws ->
  Trim last = "250 OK" ->
  read_until_ok Trim StartsWith (map Returns raws ++ Returns last :: rest) response
  = (Response (response ++ map Trim raws), rest).
Proof.
  intros Hraws Hlast. revert response.
  induction Hraws as [|raw raws [Hnot Hstarts] _ IH]; intros response; simpl.
  - rewrite Hlast. simpl. rewrite app_nil_r. reflexivity.
  - destruct (String.eqb_spec (Trim raw) "250 OK") as [Heq | _]; [contradiction|].
    rewrite Hstarts. simpl. rewrite IH, <- app_assoc. reflexivity.
Qed.

Lemma read_until_ok_response (reads rest : list (Outcome string))
    (response0 response : list string) :
  read_until_ok Trim StartsWith reads response0 = (Response response, rest) ->
  exists raws last,
    reads = map Returns raws ++ Returns last :: rest
    /\ response = response0 ++ map Trim raws
    /\ Forall (fun raw => reply_line StartsWith (Trim raw)) raws
    /\ Trim last = "250 OK".
Proof.
  revert response0. induction reads as [|[raw|e] reads IH]; intros response0; simpl.
  - discriminate.
  - destruct (String.eqb_spec (Trim raw) "250 OK") as [Heq | Hne].
    + intros [= <- <-]. exists [], raw. simpl. rewrite app_nil_r. auto.
    + destruct (StartsWith (Trim raw) "250") eqn:Hstarts; simpl; [|discriminate].
      intros Hrest. destruct (IH _ Hrest) as (raws & last & -> & -> & Hall & Hlast).
      exists (raw :: raws), last. simpl. rewrite <- app_assoc.
      repeat split; try assumption. constructor; [split; assumption | exact Hall].
  - discriminate.
Qed.

Lemma read_until_ok_rejects (raws : list string) (bad : string)
    (rest : list (Outcome string)) (response : list string) :
  Forall (fun raw => reply_line StartsWith (Trim raw)) raws ->
  Trim bad <> "250 OK" ->
  StartsWith (Trim bad) "250" = false ->
  read_until_ok Trim StartsWith (map Returns raws ++ Returns bad :: rest) response
  = (Failure (TOR_EXCEPTION ("Failed with error: " +:+ Trim bad)), rest).
Proof.
  intros Hraws Hnot Hbad. revert response.
  induction Hraws as [|raw raws [Hnot' Hstarts] _ IH]; intros response; simpl.
  - destruct (String.eqb_spec (Trim bad) "250 OK") as [Heq | _]; [contradiction|].
    rewrite Hbad. reflexivity.
  - destruct (String.eqb_spec (Trim raw) "250 OK") as [Heq | _]; [contradiction|].
    rewrite Hstarts. simpl. apply IH.
Qed.

(** X14. Invoke reads each line until "250 OK" is read. When the request is
    written and the lines that arrive, once trimmed, all start with "250"
    and differ from "250 OK" until one that is "250 OK", Invoke returns the
    trimmed lines before it, in order, without the "250 OK" line itself, and
    leaves every later line unread. *)
Theorem Invoke_reads_until_250_OK (request : string) (raws : list string)
    (last : string) (rest : list (Outcome string)) :
  Write request TOR_CONTROL_TIMEOUT = Returns tt ->
  Forall (fun raw => reply_line StartsWith (Trim raw)) raws ->
  Trim last = "250 OK" ->
  Invoke Write Trim StartsWith request (map Returns raws ++ Returns last :: rest)
  = (Response (map Trim raws), rest).
Proof.
  intros Hwrite Hraws Hlast. unfold Invoke. rewrite Hwrite.
  rewrite (read_until_ok_accepts raws last rest [] Hraws Hlast). reflexivity.
Qed.

(** X15. Whenever Invoke returns a response, the request was written, every
    line of the response starts with "250" and none is "250 OK", the
    response is the trimmed lines read before the first "250 OK" line, and
    exactly the lines up to and including that one were consumed. *)
Theorem Invoke_response_is_the_250_lines (request : string)
    (reads rest : list (Outcome string)) (response : list string) :
  Invoke Write Trim StartsWith request reads = (Response response, rest) ->
  (exists done, Write request TOR_CONTROL_TIMEOUT = Returns done)
  /\ Forall (reply_line StartsWith) response
  /\ exists raws last,
       reads = map Returns raws ++ Returns last :: rest
       /\ response = map Trim raws
       /\ Trim last = "250 OK".
Proof.
  unfold Invoke. intros Hinvoke.
  destruct (Write request TOR_CONTROL_TIMEOUT) as [done|e].
  2:{ destruct e; discriminate Hinvoke. }
  destruct (read_until_ok Trim StartsWith reads []) as [[response'|e|response'] rest']
    eqn:Hread.
  - injection Hinvoke as <- <-.
    destruct (read_until_ok_response _ _ _ _ Hread) as (raws & last & -> & -> & Hall & Hlast).
    split; [eexists; reflexivity|]. split.
    + simpl. rewrite Forall_map. exact Hall.
    + exists raws, last. auto.
  - destruct e; discriminate Hinvoke.
  - discriminate Hinvoke.
Qed.

(** X16. Invoke throws a TorException for the first line that is not
    prefixed with "250": if the lines read before it are reply lines and it
    is neither "250 OK" nor starts with "250", the outcome is the
    TorException "Failed with error: " followed by the trimmed line, the
    reply lines collected so far are dropped, and no later line is read. *)
Theorem Invoke_fails_on_first_error_line (request : string) (raws : list string)
    (bad : string) (rest : list (Outcome string)) :
  Write request TOR_CONTROL_TIMEOUT = Returns tt ->
  Forall (fun raw => reply_line StartsWith (Trim raw)) raws ->
  Trim bad <> "250 OK" ->
  StartsWith (Trim bad) "250" = false ->
  Invoke Write Trim StartsWith request (map Returns raws ++ Returns bad :: rest)
  = (Failure (TorException ("Failed with error: " +:+ Trim bad)), rest).
Proof.
  intros Hwrite Hraws Hnot Hbad. unfold Invoke. rewrite Hwrite.
  rewrite (read_until_ok_rejects raws bad rest [] Hraws Hnot Hbad). reflexivity.
Qed.

Lemma read_until_ok_failure (reads rest : list (Outcome string))
    (response : list string) (e : NetException) :
  read_until_ok Trim StartsWith reads response = (Failure e, rest) ->
  (exists line, e = TorException ("Failed with error: " +:+ line))
  \/ In (Throws e) reads.
Proof.
  revert response. induction reads as [|[raw|e0] reads IH]; intros response; simpl.
  - discriminate.
  - destruct (String.eqb (Trim raw) "250 OK"); [discriminate|].
    destruct (StartsWith (Trim raw) "250"); simpl.
    + intros Hrest. destruct (IH _ Hrest) as [Htor | Hin]; [left | right; right]; assumption.
    + intros [= <- <-]. left. eexists. reflexivity.
  - intros [= <- <-]. right. left. reflexivity.
Qed.

(** X17. Every failure of Invoke is a TorException. An exception of any
    other class thrown while writing the request or reading a line is
    replaced by a TorException carrying the same text; a TorException passes
    unchanged. In particular a failed write gives the TorException of its
    text and reads nothing. *)
Theorem Invoke_throws_only_TorException (request : string)
    (reads rest : list (Outcome string)) (e : NetException) :
  Invoke Write Trim StartsWith request reads = (Failure e, rest) ->
  (exists message, e = TorException message)
  /\ (forall cause, Write request TOR_CONTROL_TIMEOUT = Throws cause ->
        e = TorException (what_of cause) /\ rest = reads)
  /\ (Write request TOR_CONTROL_TIMEOUT = Returns tt ->
      (exists line, e = TorException ("Failed with error: " +:+ line))
      \/ exists cause, In (Throws cause) reads /\ e = TorException (what_of cause)).
Proof.
  unfold Invoke. intros Hinvoke.
  destruct (Write request TOR_CONTROL_TIMEOUT) as [[]|cause].
  - destruct (read_until_ok Trim StartsWith reads []) as [[response'|e'|response'] rest']
      eqn:Hread; try discriminate Hinvoke.
    assert (He : e = TorException (what_of e') /\ rest = rest')
      by (destruct e'; injection Hinvoke as <- <-; split; reflexivity).
    destruct He as [-> ->].
    split; [eexists; reflexivity|]. split; [intros cause Hcause; discriminate Hcause|].
    intros _. destruct (read_until_ok_failure _ _ _ _ Hread) as [[line ->] | Hin].
    + left. exists line. reflexivity.
    + right. exists e'. split; [exact Hin | reflexivity].
  - assert (He : e = TorException (what_of cause) /\ rest = reads)
      by (destruct cause; injection Hinvoke as <- <-; split; reflexivity).
    destruct He as [-> ->].
    split; [eexists; reflexivity|]. split.
    + intros cause' [= <-]. split; reflexivity.
    + intros Hw. discriminate Hw.
Qed.

(** X18. Connect reports a failed connection as [false] only for
    asio::system_error, which it logs with the address and the error text;
    it returns [true] exactly when the connection is made, and any other
    exception of the underlying client passes through to the caller. *)
Theorem Connect_catches_only_system_errors (address : SocketAddress) :
  (fst (Connect Client_Connect address) = Returns true
   <-> exists done, Client_Connect address TOR_CONTROL_TIMEOUT = Returns done)
  /\ (fst (Connect Client_Connect address) = Returns false
      <-> exists message,
            Client_Connect address TOR_CONTROL_TIMEOUT = Throws (asio_system_error message))
  /\ (forall message,
        Client_Connect address TOR_CONTROL_TIMEOUT = Throws (asio_system_error message) ->
        snd (Connect Client_Connect address)
        = Some ("Connection to {} failed with error {}.", [address; message]))
  /\ (forall e,
        fst (Connect Client_Connect address) = Throws e
        <-> Client_Connect address TOR_CONTROL_TIMEOUT = Throws e
            /\ forall message, e <> asio_system_error message).
Proof.
  unfold Connect.
  destruct (Client_Connect address TOR_CONTROL_TIMEOUT) as [done|[m|m|m]]; simpl.
  - split; [split; [intros _; eexists; reflexivity | reflexivity]|].
    split; [split; [discriminate | intros [message Hm]; discriminate Hm]|].
    split; [intros message Hm; discriminate Hm|].
    intros e. split; [discriminate | intros [Hm _]; discriminate Hm].
  - split; [split; [discriminate | intros [done Hm]; discriminate Hm]|].
    split; [split; [discriminate | intros [message Hm]; discriminate Hm]|].
    split; [intros message Hm; discriminate Hm|].
    intros e. split.
    + intros [= <-]. split; [reflexivity | discriminate].
    + intros [[= <-] _]. reflexivity.
  - split; [split; [discriminate | intros [done Hm]; discriminate Hm]|].
    split; [split; [intros _; eexists; reflexivity | reflexivity]|].
    split; [intros message [= <-]; reflexivity|].
    intros e. split; [discriminate|].
    intros [[= <-] Hnot]. exfalso. exact (Hnot m eq_refl).
  - split; [split; [discriminate | intros [done Hm]; discriminate Hm]|].
    split; [split; [discriminate | intros [message Hm]; discriminate Hm]|].
    split; [intros message Hm; discriminate Hm|].
    intros e. split.
    + intros [= <-]. split; [reflexivity | discriminate].
    + intros [[= <-] _]. reflexivity.
Qed.

End TorFacts.

(** ** Lock heights over time, and blocks without a coinbase *)
Section LockHeightsOverTime.
Context `{CryptoAPI} `{ConsensusParams}.

(** X19. Kernels that pass the lock-height check in a block pass it in every
    block with the same kernels at the same or a greater height, in both
    validators: once a kernel may be included, it may be included later. A
    block without kernels passes at any height. *)
Theorem lock_heights_pass_at_greater_height (block block' : FullBlock)
    (s s' : Machine) :
  GetKernels block' = GetKernels block ->
  GetHeight block <= GetHeight block' ->
  fst (BlockValidator.VerifyKernelLockHeights block s) = Return tt ->
  fst (BlockValidator.VerifyKernelLockHeights block' s') = Return tt
  /\ Legacy.VerifyKernelLockHeights block' = true
  /\ (forall (empty : FullBlock) (t : Machine),
        GetKernels empty = [] ->
        fst (BlockValidator.VerifyKernelLockHeights empty t) = Return tt
        /\ Legacy.VerifyKernelLockHeights empty = true).
Proof.
  intros Hkernels Hheight Hpass.
  assert (Hnone : any_of (fun kernel => kernel_lock_height kernel >? GetHeight block')
                    (GetKernels block') = false).
  { apply any_of_lock_respected. intros kernel Hin. rewrite Hkernels in Hin.
    rewrite VerifyKernelLockHeights_run in Hpass.
    destruct (any_of _ (GetKernels block)) eqn:Hany; [discriminate Hpass|].
    pose proof (proj1 (any_of_false_forall _ _) Hany kernel Hin) as Hk.
    simpl in Hk. destruct (Z.gtb_spec (kernel_lock_height kernel) (GetHeight block)).
    - discriminate Hk.
    - lia. }
  split; [|split].
  - rewrite VerifyKernelLockHeights_run, Hnone. reflexivity.
  - unfold Legacy.VerifyKernelLockHeights.
    rewrite lock_heights_loop_any_of.
    change (m_kernels (GetTransactionBody block')) with (GetKernels block').
    change (m_height (GetBlockHeader block')) with (GetHeight block').
    rewrite Hnone. reflexivity.
  - intros empty t Hempty. split.
    + rewrite VerifyKernelLockHeights_run, Hempty. reflexivity.
    + unfold Legacy.VerifyKernelLockHeights.
      change (m_kernels (GetTransactionBody empty)) with (GetKernels empty).
      rewrite Hempty. reflexivity.
Qed.

End LockHeightsOverTime.

Section NoCoinbase.
Context `{PedersenGroup} `{ConsensusParams}.

(** X20. Over the commitment group, a block that has neither a
    coinbase-marked output nor a coinbase-marked kernel is rejected by the
    coinbase check of both validators, as long as the reward commitment is
    not the zero of the group: nobody may leave the reward unclaimed. *)
Theorem block_without_coinbase_rejected (block : @FullBlock IdealCrypto) (s : Machine) :
  coinbase_output_commitments block = [] ->
  coinbase_kernel_excesses block = [] ->
  mulH (U64.wrap (REWARD + total_fee block)) <> pzero ->
  fst (BlockValidator.VerifyCoinbase block s)
    = Throw (BAD_DATA_EXCEPTION "Failed to validate coinbase")
  /\ Legacy.VerifyCoinbase block = false.
Proof.
  intros Houtputs Hexcesses Hreward.
  assert (Hfails : coinbase_passes block = false).
  { unfold coinbase_passes. rewrite ideal_coinbase_sums, Houtputs, Hexcesses. simpl.
    apply bool_decide_eq_false_2. intros Heq. apply Hreward.
    unfold coinbase_reward in Heq. symmetry in Heq.
    apply psub_eq_iff in Heq. rewrite padd_zero_l in Heq. symmetry. exact Heq. }
  split.
  - rewrite VerifyCoinbase_run. unfold coinbase_passes in Hfails.
    rewrite ideal_coinbase_sums in *. rewrite Hfails. reflexivity.
  - rewrite Legacy_VerifyCoinbase_verdict. exact Hfails.
Qed.

End NoCoinbase.

(** ** More concrete runs *)
Module MoreScenarios.
Import PairGroup Blocks Scenarios.
#[local] Existing Instance pair_schnorr.

(** The block with the unaccounted output and the block without it differ
    in a plain output only. *)
Lemma coinbase_check_ignores_plain_outputs_witness :
  coinbase_output_commitments unbalanced_block
    = coinbase_output_commitments coinbase_only_block
  /\ GetKernels unbalanced_block = GetKernels coinbase_only_block
  /\ fst (BlockValidator.VerifyCoinbase unbalanced_block (mkMachine unbalanced_block []))
     = fst (BlockValidator.VerifyCoinbase coinbase_only_block fresh_machine)
  /\ Legacy.VerifyCoinbase unbalanced_block = Legacy.VerifyCoinbase coinbase_only_block.
Proof.
  split; [reflexivity | split; [reflexivity|]].
  apply (coinbase_check_ignores_plain_outputs coinbase_only_block unbalanced_block
           fresh_machine (mkMachine unbalanced_block [])); reflexivity.
Defined.

(** A block whose body fails, whose kernel is locked too long and whose
    coinbase does not balance: the body failure is the one reported. *)
Definition hopeless_block : @FullBlock crypto :=
  mkBlock (mkHeader 1 0 [])
          (mkBody [] [minted_output] [mkKernel COINBASE_KERNEL 0 9 (0, 7) []])
          false.

Lemma first_failure_witness :
  WasValidated hopeless_block = false
  /\ body_passes failing_body_validator hopeless_block = false
  /\ lock_heights_pass hopeless_block = false
  /\ coinbase_passes hopeless_block = false
  /\ fst (BlockValidator.call_VerifySelfConsistent failing_body_validator hopeless_block)
     = Throw (BAD_DATA_EXCEPTION "Failed to validate transaction body")
  /\ fst (BlockValidator.call_VerifySelfConsistent accepting_body_validator hopeless_block)
     = Throw (BAD_DATA_EXCEPTION "Failed to validate kernel lock heights").
Proof.
  split; [reflexivity | split; [reflexivity | split; [reflexivity | split; [reflexivity|]]]].
  split.
  - apply (VerifySelfConsistent_reports_first_failure failing_body_validator
             hopeless_block eq_refl). reflexivity.
  - apply (VerifySelfConsistent_reports_first_failure accepting_body_validator
             hopeless_block eq_refl); reflexivity.
Defined.

(** The same body with its two outputs and its two kernels swapped. *)
Definition two_by_two : @FullBlock crypto :=
  mkBlock (mkHeader 1 0 [])
          (mkBody [] [coinbase_output; minted_output] [coinbase_kernel 3; plain_kernel 4])
          false.

Definition two_by_two_swapped : @FullBlock crypto :=
  mkBlock (mkHeader 1 0 [])
          (mkBody [] [minted_output; coinbase_output] [plain_kernel 4; coinbase_kernel 3])
          false.

Lemma coinbase_check_order_independent_witness :
  Permutation (GetOutputs two_by_two) (GetOutputs two_by_two_swapped)
  /\ Permutation (GetKernels two_by_two) (GetKernels two_by_two_swapped)
  /\ fst (BlockValidator.VerifyCoinbase two_by_two (mkMachine two_by_two []))
     = fst (BlockValidator.VerifyCoinbase two_by_two_swapped
              (mkMachine two_by_two_swapped []))
  /\ Legacy.VerifyCoinbase two_by_two = Legacy.VerifyCoinbase two_by_two_swapped.
Proof.
  assert (Houtputs : Permutation (GetOutputs two_by_two) (GetOutputs two_by_two_swapped))
    by apply perm_swap.
  assert (Hkernels : Permutation (GetKernels two_by_two) (GetKernels two_by_two_swapped))
    by apply perm_swap.
  split; [exact Houtputs | split; [exact Hkernels|]].
  apply (coinbase_check_order_independent two_by_two two_by_two_swapped
           (mkMachine two_by_two []) (mkMachine two_by_two_swapped [])
           Houtputs Hkernels).
Defined.

(** The two-party slate: both partial signatures verify; with the second
    one altered the check fails. *)
Definition signed_pair : list (@SignatureUtil.SlateSignature IdealSchnorr) :=
  signed_slate [(11, 5); (13, 8)] [].

Lemma VerifyPartialSignatures_iff_witness :
  Crypto_AddPublicKeys (SchnorrAPI := IdealSchnorr)
    (map SignatureUtil.excess signed_pair) = Return (0, 24)
  /\ Crypto_AddPublicKeys (SchnorrAPI := IdealSchnorr)
       (map SignatureUtil.nonce signed_pair) = Return (0, 13)
  /\ (SignatureUtil.VerifyPartialSignatures (H := IdealSchnorr) signed_pair []
        = Return true
      <-> forall sig partial,
            In sig signed_pair ->
            SignatureUtil.partialOpt sig = Some partial ->
            Crypto_VerifyPartialSignature (SchnorrAPI := IdealSchnorr) partial
              (SignatureUtil.excess sig) (0, 24) (0, 13) [] = true).
Proof.
  split; [reflexivity | split; [reflexivity|]].
  apply (VerifyPartialSignatures_iff (H := IdealSchnorr) signed_pair []
           (0, 24) (0, 13)); reflexivity.
Defined.

Example tampered_partial_rejected :
  SignatureUtil.VerifyPartialSignatures (H := IdealSchnorr) signed_pair [] = Return true
  /\ SignatureUtil.VerifyPartialSignatures (H := IdealSchnorr)
       [public_entry (11, 5) (Some ((0, 5), 940)); public_entry (13, 8) (Some ((0, 8), 1114))]
       [] = Return false
  /\ SignatureUtil.VerifyPartialSignatures (H := IdealSchnorr)
       [public_entry (11, 5) None; public_entry (13, 8) None] [] = Return true.
Proof. repeat split; reflexivity. Qed.




(** The toy encoder writes the one phrase the toy decoder reads as 32 bytes. *)
Definition toy_mnemonic (bytes : list Byte.byte) (password : option string) : string :=
  "twenty-four words".

Definition toy_seed : WalletManager.SecretKey :=
  WalletManager.mkSecretKey (replicate 32 Byte.x2a).

Definition toy_initialize :=
  NewWallet.InitializeNewWallet toy_mnemonic toy_encrypt toy_create toy_login.

Lemma new_wallet_words_restore_witness :
  toy_initialize toy_seed "carol" "pw" toy_wallet
    = (Some ("twenty-four words", 1%nat),
       WalletManager.mkWalletManager ["carol"; "bob"] ["bob"; "carol"])
  /\ fst (toy_restore "dave" "pw" "twenty-four words" toy_wallet)
     = Some (fst (toy_login "dave" toy_seed (WalletManager.m_sessionManager toy_wallet))).
Proof.
  split; [reflexivity|].
  apply (new_wallet_words_restore_the_seed toy_mnemonic toy_entropy toy_encrypt
           toy_create toy_login toy_seed "carol" "dave" "pw" "twenty-four words"
           1%nat toy_wallet
           (WalletManager.mkWalletManager ["carol"; "bob"] ["bob"; "carol"])
           toy_wallet); reflexivity.
Defined.

Example initialize_refused_for_taken_name :
  toy_initialize toy_seed "bob" "pw" toy_wallet = (None, toy_wallet).
Proof. reflexivity. Qed.

(** The coinbase-only block one and five blocks later. *)
Definition coinbase_only_block_at (height : Z) : @FullBlock crypto :=
  mkBlock (mkHeader height 0 []) (mkBody [] [coinbase_output] [coinbase_kernel 0]) false.

Lemma lock_heights_pass_at_greater_height_witness :
  GetHeight coinbase_only_block <= GetHeight (coinbase_only_block_at 6)
  /\ fst (BlockValidator.VerifyKernelLockHeights coinbase_only_block fresh_machine)
     = Return tt
  /\ fst (BlockValidator.VerifyKernelLockHeights (coinbase_only_block_at 6)
            (mkMachine (coinbase_only_block_at 6) [])) = Return tt
  /\ Legacy.VerifyKernelLockHeights (coinbase_only_block_at 6) = true.
Proof.
  assert (Hheight : GetHeight coinbase_only_block <= GetHeight (coinbase_only_block_at 6))
    by (apply Z.leb_le; reflexivity).
  split; [exact Hheight | split; [reflexivity|]].
  destruct (lock_heights_pass_at_greater_height coinbase_only_block
              (coinbase_only_block_at 6) fresh_machine
              (mkMachine (coinbase_only_block_at 6) []) eq_refl Hheight eq_refl)
    as (Hlater & Hlegacy & _).
  split; [exact Hlater | exact Hlegacy].
Defined.

(** A block of plain elements only. *)
Definition plain_block : @FullBlock crypto :=
  mkBlock (mkHeader 1 0 []) (mkBody [] [minted_output] [plain_kernel 2]) false.

Lemma block_without_coinbase_rejected_witness :
  coinbase_output_commitments plain_block = []
  /\ coinbase_kernel_excesses plain_block = []
  /\ fst (BlockValidator.VerifyCoinbase plain_block (mkMachine plain_block []))
     = Throw (BAD_DATA_EXCEPTION "Failed to validate coinbase")
  /\ Legacy.VerifyCoinbase plain_block = false.
Proof.
  split; [reflexivity | split; [reflexivity|]].
  apply (block_without_coinbase_rejected plain_block (mkMachine plain_block [])).
  - reflexivity.
  - reflexivity.
  - intros Heq. vm_compute in Heq. discriminate Heq.
Defined.

(** A Tor control port: writes succeed, lines are trimmed of blanks at both
    ends, and StartsWith is the prefix test. *)
Fixpoint drop_blanks (s : string) : string :=
  match s with
  | String c rest => if Ascii.eqb c (Ascii.ascii_of_nat 32) then drop_blanks rest else s
  | EmptyString => EmptyString
  end.

Definition trim (s : string) : string :=
  String.rev (drop_blanks (String.rev (drop_blanks s))).

Definition starts_with (s prefix : string) : bool := String.prefix prefix s.

Definition socket_write : string -> Z -> TorControlClient.Outcome unit :=
  fun _ _ => TorControlClient.Returns tt.

Definition broken_write : string -> Z -> TorControlClient.Outcome unit :=
  fun _ _ => TorControlClient.Throws (TorControlClient.asio_system_error "Broken pipe").

Definition protocol_info : list string :=
  ["250-PROTOCOLINFO 1 "; " 250-AUTH METHODS=NULL"; "250-VERSION Tor=0.4.2.7"].

Definition later_event : list (TorControlClient.Outcome string) :=
  [TorControlClient.Returns "650 STREAM"].

Ltac solve_reply_lines :=
  repeat (apply List.Forall_cons;
          [split; [intros Heq; vm_compute in Heq; discriminate Heq | reflexivity] |]);
  apply List.Forall_nil.

Lemma Invoke_reads_until_250_OK_witness :
  trim "250 OK " = "250 OK"
  /\ TorControlClient.Invoke socket_write trim starts_with "PROTOCOLINFO 1"
       (map TorControlClient.Returns protocol_info
        ++ TorControlClient.Returns "250 OK " :: later_event)
     = (TorControlClient.Response
          ["250-PROTOCOLINFO 1"; "250-AUTH METHODS=NULL"; "250-VERSION Tor=0.4.2.7"],
        later_event).
Proof.
  split; [reflexivity|].
  apply (Invoke_reads_until_250_OK socket_write trim starts_with "PROTOCOLINFO 1"
           protocol_info "250 OK " later_event).
  - reflexivity.
  - unfold protocol_info. solve_reply_lines.
  - reflexivity.
Defined.

Lemma Invoke_response_witness :
  TorControlClient.Invoke socket_write trim starts_with "GETINFO version"
    [TorControlClient.Returns "250-version=0.4.2.7"; TorControlClient.Returns "250 OK";
     TorControlClient.Returns "650 STREAM"]
  = (TorControlClient.Response ["250-version=0.4.2.7"], later_event)
  /\ Forall (TorControlClient.reply_line starts_with) ["250-version=0.4.2.7"].
Proof.
  assert (Hinvoke :
    TorControlClient.Invoke socket_write trim starts_with "GETINFO version"
      [TorControlClient.Returns "250-version=0.4.2.7"; TorControlClient.Returns "250 OK";
       TorControlClient.Returns "650 STREAM"]
    = (TorControlClient.Response ["250-version=0.4.2.7"], later_event))
    by reflexivity.
  split; [exact Hinvoke|].
  exact (proj1 (proj2 (Invoke_response_is_the_250_lines socket_write trim starts_with
                         _ _ _ _ Hinvoke))).
Defined.

Lemma Invoke_fails_on_first_error_line_witness :
  starts_with (trim "552 Unrecognized key ") "250" = false
  /\ TorControlClient.Invoke socket_write trim starts_with "GETINFO nonsense"
       (map TorControlClient.Returns ["250-version=0.4.2.7"]
        ++ TorControlClient.Returns "552 Unrecognized key " :: later_event)
     = (TorControlClient.Failure
          (TorControlClient.TorException "Failed with error: 552 Unrecognized key"),
        later_event).
Proof.
  split; [reflexivity|].
  apply (Invoke_fails_on_first_error_line socket_write trim starts_with
           "GETINFO nonsense" ["250-version=0.4.2.7"] "552 Unrecognized key "
           later_event).
  - reflexivity.
  - solve_reply_lines.
  - intros Heq. vm_compute in Heq. discriminate Heq.
  - reflexivity.
Defined.

Lemma Invoke_throws_only_TorException_witness :
  TorControlClient.Invoke broken_write trim starts_with "GETINFO version" later_event
    = (TorControlClient.Failure (TorControlClient.TorException "Broken pipe"), later_event)
  /\ exists message,
       TorControlClient.TorException "Broken pipe" = TorControlClient.TorException message.
Proof.
  assert (Hinvoke :
    TorControlClient.Invoke broken_write trim starts_with "GETINFO version" later_event
    = (TorControlClient.Failure (TorControlClient.TorException "Broken pipe"),
       later_event)) by reflexivity.
  split; [exact Hinvoke|].
  exact (proj1 (Invoke_throws_only_TorException broken_write trim starts_with
                  _ _ _ _ Hinvoke)).
Defined.

(** A read that times out in the middle of a reply, and a stream that ends
    before "250 OK". *)
Example Invoke_other_outcomes :
  TorControlClient.Invoke socket_write trim starts_with "GETINFO version"
    [TorControlClient.Returns "250-version=0.4.2.7";
     TorControlClient.Throws (TorControlClient.asio_system_error "timed out");
     TorControlClient.Returns "250 OK"]
  = (TorControlClient.Failure (TorControlClient.TorException "timed out"),
     [TorControlClient.Returns "250 OK"])
  /\ TorControlClient.Invoke socket_write trim starts_with "GETINFO version"
       [TorControlClient.Returns "250-version=0.4.2.7"]
     = (TorControlClient.AwaitingLine ["250-version=0.4.2.7"], [])
  /\ TorControlClient.Invoke socket_write trim starts_with "GETINFO version"
       [TorControlClient.Returns "250 OK"]
     = (TorControlClient.Response [], []).
Proof. repeat split; reflexivity. Qed.

End MoreScenarios.
